(** * minilv.py: miniLUT loading, slicing and monotonicity check

    A shallow embedding of [src/minilv.py] (functions [main] and [miniplot]).

    - IEEE 754 numbers are values of the Standard Library's [spec_float]:
      [np.float32] is the format [prec = 24], [emax = 128], Python floats and
      [np.float64] the format [prec = 53], [emax = 1024].
    - [print], [open], and the calls into the plotting backend are recorded as
      a trace of events; Python exceptions (with [sys.exit] raising
      [SystemExit]) are the error part of a small trace-and-exception monad.
    - The file system and the plotting backend are an explicit [world]. *)

From Stdlib Require Import ZArith String Ascii List Bool Lia.
From Stdlib Require Import SpecFloat DecimalString.
From Stdlib Require DecimalPos DecimalZ.
Import ListNotations.

Local Open Scope Z_scope.

(** ** Floating point formats *)

Module B64.
Definition prec : Z := 53.
Definition emax : Z := 1024.
Definition t := spec_float.
Definition add := SFadd prec emax.
Definition sub := SFsub prec emax.
Definition mul := SFmul prec emax.
Definition div := SFdiv prec emax.
(** An integer as a binary64 number (exact for the small integers used here). *)
Definition of_Z (z : Z) : t := binary_normalize prec emax z 0 false.
(** The literal [n/d] written in decimal in the source: the binary64
    number nearest to the quotient. *)
Definition lit (n d : Z) : t := div (of_Z n) (of_Z d).
Definition eqb := SFeqb.
End B64.

Module F32.
Definition prec : Z := 24.
Definition emax : Z := 128.
Definition t := spec_float.
Definition valid (x : t) : bool := valid_binary prec emax x.
Definition sub := SFsub prec emax.
Definition zero : t := S754_zero false.
Definition ltb := SFltb.
Definition of_Z (z : Z) : t := binary_normalize prec emax z 0 false.
End F32.

(** Ceiling of a binary64 number as an integer ([None] for infinities and NaN). *)
Definition ceil (x : B64.t) : option Z :=
  match x with
  | S754_zero _ => Some 0
  | S754_finite s m e =>
      let v := cond_Zopp s (Zpos m) in
      Some (if 0 <=? e then v * 2 ^ e else - ((- v) / 2 ^ (- e)))
  | _ => None
  end.

(** ** Axis definitions ([main], lines 50-57) *)

(** [np.arange(start, stop, step)] on floats: [ceil((stop - start)/step)]
    elements; the first is [start], the second [start + step], element [i]
    is [start + i*delta] with [delta] the difference of the first two. *)
Definition arange_float (start stop step : B64.t) : list B64.t :=
  match ceil (B64.div (B64.sub stop start) step) with
  | Some n =>
      let next := B64.add start step in
      let delta := B64.sub next start in
      map (fun i => match i with
                    | O => start
                    | S O => next
                    | _ => B64.add start (B64.mul (B64.of_Z (Z.of_nat i)) delta)
                    end) (seq 0 (Z.to_nat n))
  | None => []
  end.

(** [np.arange(start, stop, step)] on integers with a positive step. *)
Definition arange_int (start stop step : Z) : list Z :=
  map (fun i => start + Z.of_nat i * step)
      (seq 0 (Z.to_nat ((stop - start + step - 1) / step))).

(** [np.linspace(start, stop, num)] for [num > 1]: [i*step + start] with
    [step = (stop - start) / (num - 1)], the last element set to [stop]. *)
Definition linspace (start stop : B64.t) (num : nat) : list B64.t :=
  let step := B64.div (B64.sub stop start) (B64.of_Z (Z.of_nat (num - 1))) in
  map (fun i => B64.add (B64.mul (B64.of_Z (Z.of_nat i)) step) start)
      (seq 0 (num - 1)) ++ [stop].

Definition nband : list Z := arange_int 0 13 1.
Definition vband : list Z :=
  [444; 496; 560; 664; 704; 740; 782; 832; 865; 944; 1373; 1613; 2198].
Definition rtoa : list B64.t :=
  arange_float (SFopp (B64.lit 2 10)) (B64.lit 12 10) (B64.lit 7 100).
Definition tau15 : list B64.t := linspace (B64.of_Z 0) (B64.lit 15 10) 25.
Definition tau30 : list B64.t := tau15 ++ [B64.of_Z 2; B64.of_Z 3].
Definition alt : list Z := arange_int 0 3100 1000.


(** ** Monotonicity check ([miniplot], line 137) *)

(** [np.diff(a)]: the float32 differences [a[i+1] - a[i]]. *)
Definition diff (a : list F32.t) : list F32.t :=
  map (fun p => F32.sub (snd p) (fst p)) (combine a (tl a)).

(** [d > 0] on a float32 element. *)
Definition gt0 (d : F32.t) : bool := F32.ltb F32.zero d.

(** [np.all(np.diff(a) > 0)]. *)
Definition monotony (a : list F32.t) : bool := forallb gt0 (diff a).

(** The specification's reading: every consecutive pair satisfies
    [a[i+1] > a[i]] for the float32 comparison. *)
Definition strictly_increasing (a : list F32.t) : Prop :=
  forall i : nat, (S i < length a)%nat ->
    F32.ltb (nth i a F32.zero) (nth (S i) a F32.zero) = true.

(** The same reading as a decision procedure. *)
Fixpoint increasing (a : list F32.t) : bool :=
  match a with
  | x :: (y :: _) as r => F32.ltb x y && increasing r
  | _ => true
  end.

(** A number of sign [s] that is neither zero nor NaN. *)
Definition signed_nonzero (s : bool) (x : spec_float) : Prop :=
  (exists m e, x = S754_finite s m e) \/ x = S754_infinity s.


(** ** Python values *)

(** [str(n)] and ["%i" % n] for an integer. *)
Definition str (z : Z) : string := NilZero.string_of_int (Z.to_int z).

(** [s[:-4]]: all but the last four characters, nothing when there are
    fewer than four. *)
Definition drop_last4 (s : string) : string :=
  substring 0 (String.length s - 4) s.

(** Index along an axis of [n] elements: a negative index counts from the
    end; [None] is Python's [IndexError]. *)
Definition axis_index (n : nat) (i : Z) : option nat :=
  if (i <? - Z.of_nat n) || (Z.of_nat n <=? i) then None
  else Some (Z.to_nat (if i <? 0 then i + Z.of_nat n else i)).

(** [l[i]] on a list or a one-dimensional array. *)
Definition py_index {A : Type} (l : list A) (i : Z) : option A :=
  match axis_index (length l) i with
  | Some k => nth_error l k
  | None => None
  end.

(** Rounding of the rational [n / 2^k] to the nearest integer, ties to even. *)
Definition round_half_even (n : Z) (k : Z) : Z :=
  let q := n / 2 ^ k in
  match 2 * (n mod 2 ^ k) ?= 2 ^ k with
  | Lt => q
  | Gt => q + 1
  | Eq => if Z.even q then q else q + 1
  end.

(** ["%4.2f" % x]: two correctly rounded decimals, right-aligned on four
    characters. *)
Definition fmt_4_2f (x : B64.t) : string :=
  match x with
  | S754_nan => " nan"
  | S754_infinity s => if s then "-inf" else " inf"
  | S754_zero s => if s then "-0.00" else "0.00"
  | S754_finite s m e =>
      let h := if 0 <=? e then 100 * Zpos m * 2 ^ e
               else round_half_even (100 * Zpos m) (- e) in
      let sign := if s then "-"%string else ""%string in
      let pad := if h mod 100 <? 10 then "0"%string else ""%string in
      (sign ++ str (h / 100) ++ "." ++ pad ++ str (h mod 100))%string
  end.

(** A four-dimensional float32 array in C order. *)
Record ndarray4 := {
  nd_data : list F32.t;
  nd_shape : nat * nat * nat * nat
}.

(** [fdata.size]. *)
Definition size (fdata : list F32.t) : Z := Z.of_nat (length fdata).

(** [fdata.reshape(d0, d1, d2, d3)]; [None] is [ValueError]. *)
Definition reshape (fdata : list F32.t) (d0 d1 d2 d3 : nat) : option ndarray4 :=
  if (length fdata =? d0 * d1 * d2 * d3)%nat
  then Some {| nd_data := fdata; nd_shape := (d0, d1, d2, d3) |}
  else None.

(** [minilut[band, :, t, level]]; [None] is [IndexError]. *)
Definition slice (minilut : ndarray4) (band t level : Z) : option (list F32.t) :=
  let '(d0, d1, d2, d3) := nd_shape minilut in
  match axis_index d0 band, axis_index d2 t, axis_index d3 level with
  | Some b, Some k, Some l =>
      Some (map (fun r => nth (((b * d1 + r) * d2 + k) * d3 + l)%nat
                              (nd_data minilut) F32.zero)
                (seq 0 d1))
  | _, _, _ => None
  end.

(** ** Effects: trace of events and exceptions *)

Inductive exn :=
| ValueError
| FileNotFoundError
| PermissionError
| IndexError
| UnboundLocalError
| SystemExit (status : Z)
| OtherError (name : string).

Definition exn_name (e : exn) : string :=
  match e with
  | ValueError => "ValueError"
  | FileNotFoundError => "FileNotFoundError"
  | PermissionError => "PermissionError"
  | IndexError => "IndexError"
  | UnboundLocalError => "UnboundLocalError"
  | SystemExit _ => "SystemExit"
  | OtherError name => name
  end.

Inductive event :=
| EPrint (line : string)                        (* print(...) *)
| EOpen (path : string)                         (* open(path, 'rb') *)
| ESubplots                                     (* pl.subplots and axis set-up *)
| ETitle (wavelength altitude : Z)              (* pl.title *)
| EIdentity                                     (* the dashed line y = x *)
| EPlot (label : string) (curve : list F32.t)   (* ax1.plot(rtoa, curve) *)
| ELegend
| ESavefig (filename : string)                  (* pl.savefig *)
| EShow.                                        (* pl.show *)

Inductive result (A : Type) :=
| Ok (a : A)
| Raise (e : exn).
Arguments Ok {A} a.
Arguments Raise {A} e.

Definition M (A : Type) : Type := list event * result A.

Definition ret {A : Type} (a : A) : M A := ([], Ok a).

Definition bind {A B : Type} (m : M A) (k : A -> M B) : M B :=
  match snd m with
  | Ok a => let r := k a in (fst m ++ fst r, snd r)
  | Raise e => (fst m, Raise e)
  end.

Definition emit (ev : event) : M unit := ([ev], Ok tt).
Definition raise {A : Type} (e : exn) : M A := ([], Raise e).
Definition print (line : string) : M unit := emit (EPrint line).
Definition sys_exit {A : Type} (status : Z) : M A := raise (SystemExit status).

(** [try: m except: handler]. *)
Definition try_except {A : Type} (m : M A) (handler : exn -> M A) : M A :=
  match snd m with
  | Ok a => m
  | Raise e => let r := handler e in (fst m ++ fst r, snd r)
  end.

Definition when (b : bool) (m : M unit) : M unit := if b then m else ret tt.

Definition lift {A : Type} (o : option A) (e : exn) : M A :=
  match o with
  | Some a => ret a
  | None => raise e
  end.

Declare Scope py_scope.
Delimit Scope py_scope with py.
Notation "x <- m ;; k" := (bind m (fun x => k))
  (at level 61, m at next level, right associativity) : py_scope.
Notation "m ;; k" := (bind m (fun _ => k))
  (at level 61, right associativity) : py_scope.
Local Open Scope py_scope.

Fixpoint for_each {A : Type} (l : list A) (body : A -> M unit) : M unit :=
  match l with
  | [] => ret tt
  | x :: r => body x ;; for_each r body
  end.

(** Exit status of the process: the argument of [sys.exit], or 1 when an
    exception reaches the top level. *)
Definition exit_status (r : result unit) : Z :=
  match r with
  | Ok _ => 0
  | Raise (SystemExit status) => status
  | Raise _ => 1
  end.

(** The environment of a run: what opening and decoding a file yields (the
    float32 elements [np.fromfile] reads, or the exception raised), and
    whether writing the figure raises. *)
Record world := {
  w_open : string -> exn + list F32.t;
  w_savefig : string -> option exn
}.

Definition open_fromfile (w : world) (path : string) : M (list F32.t) :=
  emit (EOpen path) ;;
  match w_open w path with
  | inr fdata => ret fdata
  | inl e => raise e
  end.

Definition savefig (w : world) (filename : string) : M unit :=
  emit (ESavefig filename) ;;
  match w_savefig w filename with
  | None => ret tt
  | Some e => raise e
  end.

(** ** The program *)

Record args := {
  FILE : string;
  verbose : bool;
  band : Z;
  level : Z;
  all : bool
}.

(** Lines 123-131: the AOT indices to plot; [None] when neither tag matches
    and [tau_sampling] stays unbound. *)
Definition tau_sampling (dims : string) (showall : bool) (tau : list B64.t)
  : option (list Z) :=
  let curated :=
    if (dims =? "LUT30")%string then Some [0; 8; 16; 24; 25; 26]
    else if (dims =? "LUT15")%string then Some [0; 8; 16; 24]
    else None in
  if showall then Some (map Z.of_nat (seq 0 (length tau))) else curated.

Definition nonmonotone_warning (aot : B64.t) : string :=
  ("WARNING: non-monotone fitting for AOT=" ++ fmt_4_2f aot)%string.

(** Lines 135-139: the body of the loop on AOT. *)
Definition plot_aot (rtoa tau : list B64.t) (minilut : ndarray4)
    (band level : Z) (t : Z) : M unit :=
  curve <- lift (slice minilut band t level) IndexError ;;
  aot <- lift (py_index tau t) IndexError ;;
  (* the backend refuses abscissas and ordinates of different lengths *)
  (if (length rtoa =? length curve)%nat then ret tt else raise ValueError) ;;
  emit (EPlot ("AOT=" ++ fmt_4_2f aot)%string curve) ;;
  when (negb (monotony curve)) (print (nonmonotone_warning aot)).

(** Lines 114-141: everything [miniplot] draws before saving. *)
Definition draw (rtoa tau : list B64.t) (minilut : ndarray4) (alt vband : list Z)
    (band level : Z) (dims : string) (showall : bool) : M unit :=
  emit ESubplots ;;
  wavelength <- lift (py_index vband band) IndexError ;;
  altitude <- lift (py_index alt level) IndexError ;;
  emit (ETitle wavelength altitude) ;;
  (* min(rtoa), max(rtoa) *)
  (match rtoa with [] => raise ValueError | _ => ret tt end) ;;
  emit EIdentity ;;
  sampling <- lift (tau_sampling dims showall tau) UnboundLocalError ;;
  for_each sampling (plot_aot rtoa tau minilut band level) ;;
  emit ELegend.

Definition miniplot (w : world) (rtoa tau : list B64.t) (minilut : ndarray4)
    (alt vband : list Z) (filename : string) (band level : Z) (dims : string)
    (verbose showall : bool) : M unit :=
  draw rtoa tau minilut alt vband band level dims showall ;;
  try_except (savefig w filename)
    (fun e => match e with
              | PermissionError =>
                  print "WARNING: write permission missing, couldn't save figure"
              | _ => raise e
              end) ;;
  when verbose (emit EShow).

(** Lines 72-100 of [main]: open the file and give the buffer its four
    dimensions, first with the AOT axis up to 3.0, then up to 1.5. The
    result is the AOT axis, the array and the flag [ftau]. *)
Definition load (w : world) (a : args) : M (list B64.t * ndarray4 * string) :=
  try_except
    (fdata <- open_fromfile w (FILE a) ;;
     minilut <- lift (reshape fdata (length nband) (length rtoa)
                                    (length tau30) (length alt)) ValueError ;;
     when (verbose a) (print ("INFO: successfuly opened " ++ FILE a)%string) ;;
     ret (tau30, minilut, "LUT30"%string))
    (fun e =>
       match e with
       | ValueError =>
           print "WARNING: bad minilut dimensions, trying with AOT->1.5" ;;
           (* [fdata] is bound only when the file was read *)
           fdata <- match w_open w (FILE a) with
                    | inr fdata => ret fdata
                    | inl _ => raise UnboundLocalError
                    end ;;
           minilut <- lift (reshape fdata (length nband) (length rtoa)
                                          (length tau15) (length alt)) ValueError ;;
           ret (tau15, minilut, "LUT15"%string)
       | FileNotFoundError =>
           print ("ERROR: file " ++ FILE a ++ " not found...")%string ;;
           sys_exit 1
       | _ =>
           print ("ERROR: Unexpected error: <class '" ++ exn_name e ++ "'>")%string ;;
           raise e
       end).

(** Line 103. *)
Definition fname (a : args) : string :=
  (drop_last4 (FILE a) ++ "_B" ++ str (band a + 1) ++ "_L" ++ str (level a)
     ++ ".png")%string.

Definition main (w : world) (a : args) : M unit :=
  (if band a >? Z.of_nat (length nband)
   then print "ERROR: Band number out of range" ;; sys_exit 1
   else ret tt) ;;
  (if level a >? Z.of_nat (length alt)
   then print "ERROR: Level out of range" ;; sys_exit 1
   else ret tt) ;;
  when (verbose a) (print ("INFO: working with band B" ++ str (band a + 1))%string) ;;
  loaded <- load w a ;;
  let '(tau, minilut, ftau) := loaded in
  miniplot w rtoa tau minilut alt vband (fname a)
           (band a) (level a) ftau (verbose a) (all a) ;;
  print "INFO: Done..." ;;
  sys_exit 0.

(** ** Worlds and arrays used as concrete inputs *)

(** The array whose element [band, r, t, level] is [f r t]. *)
Definition synthetic (d0 d1 d2 d3 : nat) (f : nat -> nat -> F32.t) : list F32.t :=
  flat_map (fun _ =>
    flat_map (fun r =>
      flat_map (fun t => repeat (f r t) d3) (seq 0 d2)) (seq 0 d1)) (seq 0 d0).

(** Every curve increases with the reflectance index. *)
Definition ramp (r t : nat) : F32.t := F32.of_Z (Z.of_nat r).

(** As [ramp], but the curve of AOT index 8 is constant. *)
Definition ramp_flat8 (r t : nat) : F32.t :=
  if (t =? 8)%nat then F32.of_Z 1 else F32.of_Z (Z.of_nat r).

Definition extended_buffer : list F32.t := synthetic 13 20 27 4 ramp.
Definition legacy_buffer : list F32.t := synthetic 13 20 25 4 ramp.

(** A world with one file at every path and a writable destination. *)
Definition world_with (fdata : list F32.t) : world :=
  {| w_open := fun _ => inr fdata; w_savefig := fun _ => None |}.

(** The same with a destination that is not writable. *)
Definition world_readonly (fdata : list F32.t) : world :=
  {| w_open := fun _ => inr fdata; w_savefig := fun _ => Some PermissionError |}.

Definition cli (file : string) (b z : Z) : args :=
  {| FILE := file; verbose := false; band := b; level := z; all := false |}.

(** ** Observations on a run *)

(** The optional first line of output (line 69). *)
Definition info_line (a : args) : list event :=
  if verbose a
  then [EPrint ("INFO: working with band B" ++ str (band a + 1))%string]
  else [].

Definition is_nonmonotone_warning (ev : event) : bool :=
  match ev with
  | EPrint line => prefix "WARNING: non-monotone" line
  | _ => false
  end.

(** What a run puts on the figure: the title and the labelled curves. *)
Definition drawn (t : list event) : list event :=
  filter (fun ev => match ev with
                    | ETitle _ _ | EPlot _ _ => true
                    | _ => false
                    end) t.

(** The invocation with each index counted from the start of its axis. *)
Definition wrapped (a : args) : args :=
  {| FILE := FILE a; verbose := verbose a;
     band := band a mod 13; level := level a mod 4; all := all a |}.

(** No call to [savefig] in the trace. *)
Definition quiet {A : Type} (m : M A) : Prop :=
  forall f, ~ In (ESavefig f) (fst m).

Definition permission_warning : string :=
  "WARNING: write permission missing, couldn't save figure".

Definition fallback_warning : string :=
  "WARNING: bad minilut dimensions, trying with AOT->1.5".

(** The interactive display of line 150. *)
Definition show_events (a : args) : list event :=
  if verbose a then [EShow] else [].

(** What follows the call to [savefig]: the trace and the way the run ends. *)
Definition after_savefig (w : world) (a : args) : list event * result unit :=
  match w_savefig w (fname a) with
  | None => (show_events a ++ [EPrint "INFO: Done..."], Raise (SystemExit 0))
  | Some PermissionError =>
      (EPrint permission_warning :: show_events a ++ [EPrint "INFO: Done..."],
       Raise (SystemExit 0))
  | Some e => ([], Raise e)
  end.

(** An index that Python accepts on an axis of [n] elements. *)
Definition in_axis (n : nat) (i : Z) : Prop :=
  - Z.of_nat n <= i < Z.of_nat n.

(** The non-monotone warnings of a trace. *)
Definition nonmonotone_warnings (t : list event) : list event :=
  filter is_nonmonotone_warning t.

(** An array of the first shape whose curve of AOT index 8 is constant and
    whose other curves increase. *)
Definition flat8_lut : ndarray4 :=
  {| nd_data := synthetic 13 20 27 4 ramp_flat8; nd_shape := (13, 20, 27, 4)%nat |}.

(** ** Further observations *)

(** Every event of the trace satisfies [P]. *)
Definition trace_all {A : Type} (P : event -> Prop) (m : M A) : Prop :=
  Forall P (fst m).

(** The character [c] does not occur in [s]. *)
Fixpoint free_of (c : ascii) (s : string) : Prop :=
  match s with
  | EmptyString => True
  | String x r => x <> c /\ free_of c r
  end.

(** The order of [SFcompare] on two finite numbers of the same sign:
    exponent first, then mantissa. *)
Definition lex_lt (e1 : Z) (m1 : positive) (e2 : Z) (m2 : positive) : Prop :=
  e1 < e2 \/ (e1 = e2 /\ (m1 < m2)%positive).

(** The curve and the AOT value [plot_aot] reads for the index [t]. *)
Definition curve_of (minilut : ndarray4) (band level t : Z) : list F32.t :=
  match slice minilut band t level with
  | Some curve => curve
  | None => []
  end.

Definition aot_of (tau : list B64.t) (t : Z) : B64.t :=
  match py_index tau t with
  | Some aot => aot
  | None => S754_nan
  end.

Definition aot_label (tau : list B64.t) (t : Z) : string :=
  ("AOT=" ++ fmt_4_2f (aot_of tau t))%string.

Definition done_line : string := "INFO: Done...".

(** What one turn of the loop on AOT leaves in the trace when it completes:
    the curve, and the warning when the curve fails the check. *)
Definition plot_trace (tau : list B64.t) (minilut : ndarray4) (band level t : Z)
  : list event :=
  EPlot (aot_label tau t) (curve_of minilut band level t) ::
  (if monotony (curve_of minilut band level t) then []
   else [EPrint (nonmonotone_warning (aot_of tau t))]).

(** The events [load] can leave in the trace. *)
Definition loading_event (ev : event) : Prop :=
  match ev with
  | EOpen _ => True
  | EPrint line => line <> done_line
  | _ => False
  end.

(** The events [draw] can leave in the trace for the array [minilut]. *)
Definition drawing_event (minilut : ndarray4) (band level : Z) (ev : event) : Prop :=
  match ev with
  | ESubplots | ETitle _ _ | EIdentity | ELegend => True
  | EPlot _ curve => exists t, slice minilut band t level = Some curve
  | EPrint line => prefix "WARNING: non-monotone" line = true
  | _ => False
  end.

(** Every exception the computation can end with satisfies [Q]. *)
Definition raises_in {A : Type} (Q : exn -> Prop) (m : M A) : Prop :=
  forall e, snd m = Raise e -> Q e.

(** The exceptions raised inside [draw]. *)
Definition drawing_exn (e : exn) : Prop :=
  e = IndexError \/ e = ValueError \/ e = UnboundLocalError.

(** The two messages of the validation (lines 61 and 65). *)
Definition band_error : string := "ERROR: Band number out of range".
Definition level_error : string := "ERROR: Level out of range".

(** An event that is not the report of a usage error. *)
Definition not_usage_error (ev : event) : Prop :=
  match ev with
  | EPrint line => line <> band_error /\ line <> level_error
  | _ => True
  end.

(** * Sign of a rounded difference *)

Section SubSign.
Variables prec emax : Z.
Hypothesis prec_pos : 0 < prec.

Let emin := SpecFloat.emin prec emax.
Let fexp := SpecFloat.fexp prec emax.

Lemma digits2_pos_bounds (m : positive) :
  2 ^ (Zpos (digits2_pos m) - 1) <= Zpos m < 2 ^ Zpos (digits2_pos m).
Proof.
  induction m as [m IH | m IH | ]; cbn [digits2_pos].
  - rewrite Pos2Z.inj_succ, Z.pow_succ_r by lia.
    replace (Z.succ (Zpos (digits2_pos m)) - 1)
      with (Z.succ (Zpos (digits2_pos m) - 1)) by lia.
    rewrite Z.pow_succ_r by lia. lia.
  - rewrite Pos2Z.inj_succ, Z.pow_succ_r by lia.
    replace (Z.succ (Zpos (digits2_pos m)) - 1)
      with (Z.succ (Zpos (digits2_pos m) - 1)) by lia.
    rewrite Z.pow_succ_r by lia. lia.
  - cbn. lia.
Qed.

Lemma shr_1_m (mrs : shr_record) :
  0 <= shr_m mrs -> shr_m (shr_1 mrs) = shr_m mrs / 2.
Proof.
  destruct mrs as [m r s]; cbn [shr_m]; intros Hm.
  destruct m as [ | [p | p | ] | p]; cbn [shr_1 shr_m]; try lia.
  - reflexivity.
  - rewrite Pos2Z.inj_xI. apply Z.div_unique with (r := 1); lia.
  - rewrite Pos2Z.inj_xO. apply Z.div_unique with (r := 0); lia.
  - reflexivity.
Qed.

Lemma shr_1_nonneg (mrs : shr_record) :
  0 <= shr_m mrs -> 0 <= shr_m (shr_1 mrs).
Proof.
  intros H. rewrite shr_1_m by exact H. apply Z.div_pos; lia.
Qed.

Lemma pow2_xO (p : positive) : 2 ^ Zpos p~0 = 2 ^ Zpos p * 2 ^ Zpos p.
Proof.
  rewrite (Pos2Z.inj_xO p).
  replace (2 * Zpos p) with (Zpos p + Zpos p) by lia.
  apply Z.pow_add_r; lia.
Qed.

Lemma pow2_xI (p : positive) : 2 ^ Zpos p~1 = 2 * (2 ^ Zpos p * 2 ^ Zpos p).
Proof.
  rewrite (Pos2Z.inj_xI p).
  replace (2 * Zpos p + 1) with (1 + (Zpos p + Zpos p)) by lia.
  rewrite !Z.pow_add_r by lia. rewrite Z.pow_1_r. reflexivity.
Qed.

Lemma iter_shr_1_m (p : positive) :
  forall mrs, 0 <= shr_m mrs ->
    shr_m (iter_pos shr_1 p mrs) = shr_m mrs / 2 ^ Zpos p.
Proof.
  induction p as [p IH | p IH | ]; intros mrs Hm; cbn [iter_pos].
  - assert (H1 : 0 <= shr_m (shr_1 mrs)) by now apply shr_1_nonneg.
    assert (H2 : 0 <= shr_m (iter_pos shr_1 p (shr_1 mrs))).
    { rewrite IH by exact H1. apply Z.div_pos; lia. }
    rewrite IH by exact H2. rewrite IH by exact H1.
    rewrite shr_1_m by exact Hm.
    rewrite !Z.div_div by lia.
    rewrite pow2_xI. f_equal; lia.
  - assert (H2 : 0 <= shr_m (iter_pos shr_1 p mrs)).
    { rewrite IH by exact Hm. apply Z.div_pos; lia. }
    rewrite IH by exact H2. rewrite IH by exact Hm.
    rewrite Z.div_div by lia.
    rewrite pow2_xO. reflexivity.
  - rewrite shr_1_m by exact Hm. reflexivity.
Qed.

Lemma shr_record_of_loc_m (m : Z) (l : location) :
  shr_m (shr_record_of_loc m l) = m.
Proof. destruct l as [ | [ | | ]]; reflexivity. Qed.

(** Shifting a positive mantissa whose exponent is at least [emin] to the
    exponent [fexp] asks for keeps it positive: no underflow to zero. *)
Lemma shr_fexp_pos (m e : Z) (l : location) :
  0 < m -> emin <= e ->
  0 < shr_m (fst (shr_fexp prec emax m e l)) /\
  emin <= snd (shr_fexp prec emax m e l).
Proof.
  intros Hm He. unfold shr_fexp, shr.
  destruct m as [ | p | p]; try lia. cbn [Zdigits2].
  pose proof (digits2_pos_bounds p) as [Hlo _].
  set (d := Zpos (digits2_pos p)) in *.
  destruct (SpecFloat.fexp prec emax (d + e) - e) as [ | q | q] eqn:E;
    cbn [fst snd]; rewrite ?shr_record_of_loc_m; try (split; lia).
  unfold SpecFloat.fexp in E. fold emin in E.
  assert (Hq : Zpos q = d - prec) by lia.
  rewrite iter_shr_1_m by (rewrite shr_record_of_loc_m; lia).
  rewrite shr_record_of_loc_m. split; [ | lia].
  apply Z.div_str_pos. split; [apply Z.pow_pos_nonneg; lia | ].
  rewrite Hq. apply Z.le_trans with (2 ^ (d - 1)); [ | exact Hlo].
  apply Z.pow_le_mono_r; lia.
Qed.

Lemma round_nearest_even_pos (m : Z) (l : location) :
  0 < m -> 0 < round_nearest_even m l.
Proof.
  intros Hm. destruct l as [ | [ | | ]]; cbn [round_nearest_even]; try lia.
  destruct (Z.even m); lia.
Qed.

Lemma binary_round_aux_sign (s : bool) (m e : Z) (l : location) :
  0 < m -> emin <= e ->
  signed_nonzero s (binary_round_aux prec emax s m e l).
Proof.
  intros Hm He. unfold binary_round_aux.
  destruct (shr_fexp_pos m e l Hm He) as [H1 H2].
  destruct (shr_fexp prec emax m e l) as [mrs' e']. cbn [fst snd] in H1, H2.
  pose proof (round_nearest_even_pos _ (loc_of_shr_record mrs') H1) as H3.
  destruct (shr_fexp_pos _ e' loc_Exact H3 H2) as [H4 _].
  destruct (shr_fexp prec emax _ e' loc_Exact) as [mrs'' e''].
  cbn [fst] in H4.
  destruct (shr_m mrs'') as [ | q | q]; try lia.
  destruct (e'' <=? emax - prec); [left; eauto | right; reflexivity].
Qed.

Lemma binary_round_sign (s : bool) (m : positive) (e : Z) :
  emin <= e -> signed_nonzero s (binary_round prec emax s m e).
Proof.
  intros He. unfold binary_round, shl_align.
  set (e1 := SpecFloat.fexp prec emax (Zpos (digits2_pos m) + e)).
  assert (He1 : emin <= e1) by (unfold e1, SpecFloat.fexp; fold emin; lia).
  destruct (e1 - e); apply binary_round_aux_sign; lia.
Qed.

Lemma binary_normalize_sign (z e : Z) :
  z <> 0 -> emin <= e ->
  signed_nonzero (z <? 0) (binary_normalize prec emax z e false).
Proof.
  intros Hz He. destruct z as [ | p | p]; [lia | | ];
    cbn [binary_normalize]; now apply binary_round_sign.
Qed.

Lemma shl_align_value (m : positive) (e e' : Z) :
  e' <= e -> Zpos (fst (shl_align m e e')) = Zpos m * 2 ^ (e - e').
Proof.
  intros He. unfold shl_align.
  destruct (e' - e) as [ | d | d] eqn:E; cbn [fst]; try lia.
  - replace (e - e') with 0 by lia. lia.
  - replace (e - e') with (Zpos d) by lia.
    fold (shift_pos d m). rewrite shift_pos_correct.
    change (Z.pow_pos 2 d) with (2 ^ Zpos d). lia.
Qed.

Lemma bounded_inv (m : positive) (e : Z) :
  bounded prec emax m e = true ->
  emin <= e /\ Zpos (digits2_pos m) <= prec /\
  (emin < e -> Zpos (digits2_pos m) = prec).
Proof.
  unfold bounded, canonical_mantissa, SpecFloat.fexp. fold emin.
  intros H. apply andb_true_iff in H as [H _]. apply Z.eqb_eq in H. lia.
Qed.

(** Canonical mantissas: the smaller exponent is the smaller number. *)
Lemma bounded_exponent_lt (m1 m2 : positive) (e1 e2 : Z) :
  bounded prec emax m1 e1 = true -> bounded prec emax m2 e2 = true ->
  e1 < e2 -> Zpos m1 < Zpos m2 * 2 ^ (e2 - e1).
Proof.
  intros B1 B2 Hlt.
  apply bounded_inv in B1 as (He1 & Hd1 & _).
  apply bounded_inv in B2 as (_ & _ & Hd2).
  specialize (Hd2 ltac:(lia)).
  pose proof (digits2_pos_bounds m1) as [_ Hup].
  pose proof (digits2_pos_bounds m2) as [Hlo _].
  rewrite Hd2 in Hlo.
  assert (H1 : Zpos m1 < 2 ^ prec).
  { apply Z.lt_le_trans with (1 := Hup). apply Z.pow_le_mono_r; lia. }
  assert (H2 : 2 ^ 1 <= 2 ^ (e2 - e1)) by (apply Z.pow_le_mono_r; lia).
  rewrite Z.pow_1_r in H2.
  assert (H3 : 2 ^ prec = 2 ^ (prec - 1) * 2).
  { replace prec with (prec - 1 + 1) at 1 by lia.
    rewrite Z.pow_add_r by lia. now rewrite Z.pow_1_r. }
  nia.
Qed.

Lemma gt0_signed_nonzero (s : bool) (x : spec_float) :
  signed_nonzero s x -> SFltb (S754_zero false) x = negb s.
Proof.
  intros [(m & e & ->) | ->]; destruct s; reflexivity.
Qed.

(** On canonical finite numbers [SFltb] is the order of the mantissas
    brought to the common exponent [Z.min e1 e2]. *)
Lemma SFltb_finite_aligned (s1 s2 : bool) (m1 m2 : positive) (e1 e2 : Z) :
  bounded prec emax m1 e1 = true -> bounded prec emax m2 e2 = true ->
  SFltb (S754_finite s1 m1 e1) (S754_finite s2 m2 e2) =
  (cond_Zopp s1 (Zpos (fst (shl_align m1 e1 (Z.min e2 e1)))) <?
   cond_Zopp s2 (Zpos (fst (shl_align m2 e2 (Z.min e2 e1))))).
Proof.
  intros B1 B2.
  rewrite !shl_align_value by lia.
  pose proof (bounded_exponent_lt m1 m2 e1 e2 B1 B2) as H12.
  pose proof (bounded_exponent_lt m2 m1 e2 e1 B2 B1) as H21.
  assert (Hp1 : 0 < 2 ^ (e1 - Z.min e2 e1)) by (apply Z.pow_pos_nonneg; lia).
  assert (Hp2 : 0 < 2 ^ (e2 - Z.min e2 e1)) by (apply Z.pow_pos_nonneg; lia).
  unfold SFltb, SFcompare.
  change (Pos.compare_cont Eq m1 m2) with (Zpos m1 ?= Zpos m2).
  destruct s1, s2; cbn [cond_Zopp].
  - destruct (Z.compare_spec e1 e2) as [E | E | E].
    + subst e2. rewrite Z.min_id, Z.sub_diag, Z.pow_0_r, !Z.mul_1_r.
      destruct (Z.compare_spec (Zpos m1) (Zpos m2)); cbn [CompOpp];
        symmetry; [apply Z.ltb_ge | apply Z.ltb_ge | apply Z.ltb_lt]; lia.
    + rewrite Z.min_r in * by lia. rewrite Z.sub_diag, Z.pow_0_r, Z.mul_1_r.
      symmetry. apply Z.ltb_ge. specialize (H12 E). lia.
    + rewrite Z.min_l in * by lia. rewrite Z.sub_diag, Z.pow_0_r, Z.mul_1_r.
      symmetry. apply Z.ltb_lt. specialize (H21 E). lia.
  - symmetry. apply Z.ltb_lt. nia.
  - symmetry. apply Z.ltb_ge. nia.
  - destruct (Z.compare_spec e1 e2) as [E | E | E].
    + subst e2. rewrite Z.min_id, Z.sub_diag, Z.pow_0_r, !Z.mul_1_r.
      destruct (Z.compare_spec (Zpos m1) (Zpos m2));
        symmetry; [apply Z.ltb_ge | apply Z.ltb_lt | apply Z.ltb_ge]; lia.
    + rewrite Z.min_r in * by lia. rewrite Z.sub_diag, Z.pow_0_r, Z.mul_1_r.
      symmetry. apply Z.ltb_lt. specialize (H12 E). lia.
    + rewrite Z.min_l in * by lia. rewrite Z.sub_diag, Z.pow_0_r, Z.mul_1_r.
      symmetry. apply Z.ltb_ge. specialize (H21 E). lia.
Qed.

(** A rounded difference is positive exactly when the exact one is: with
    gradual underflow, [b - a > 0] and [a < b] agree on all valid numbers,
    infinities, signed zeros and NaN included. *)
Lemma SFsub_gt0 (a b : spec_float) :
  valid_binary prec emax a = true -> valid_binary prec emax b = true ->
  SFltb (S754_zero false) (SFsub prec emax b a) = SFltb a b.
Proof.
  intros Va Vb.
  destruct a as [sa | sa | | sa ma ea], b as [sb | sb | | sb mb eb];
    try (destruct sa); try (destruct sb); try reflexivity.
  all: cbn [valid_binary] in Va, Vb.
  all: rewrite SFltb_finite_aligned by assumption.
  all: cbn [SFsub].
  all: set (ez := Z.min eb ea).
  all: match goal with
       | |- context [binary_normalize _ _ ?z _ _] => set (D := z)
       end.
  all: assert (Hez : emin <= ez)
    by (apply bounded_inv in Va, Vb; unfold ez; lia).
  all: destruct (Z.eq_dec D 0) as [E0 | E0];
    [ rewrite E0; cbn [binary_normalize];
      change (SFltb (S754_zero false) (S754_zero false)) with false
    | rewrite (gt0_signed_nonzero _ _ (binary_normalize_sign D ez E0 Hez)) ].
  all: unfold D in *; cbn [cond_Zopp] in *.
  all: match goal with
       | |- _ = (?x <? ?y) => destruct (Z.ltb_spec x y)
       end.
  all: try match goal with
       | |- negb (?x <? ?y) = _ => destruct (Z.ltb_spec x y)
       end.
  all: try reflexivity; cbn [negb]; lia.
Qed.

End SubSign.


(** * The monotonicity check *)

Lemma SFltb_irrefl (x : spec_float) : SFltb x x = false.
Proof.
  destruct x as [[] | [] | | [] m e]; try reflexivity;
    unfold SFltb, SFcompare; rewrite Z.compare_refl;
    change (Pos.compare_cont Eq m m) with (Pos.compare m m);
    rewrite Pos.compare_refl; reflexivity.
Qed.

Lemma f32_sub_gt0 (a b : F32.t) :
  F32.valid a = true -> F32.valid b = true ->
  gt0 (F32.sub b a) = F32.ltb a b.
Proof.
  intros Va Vb. unfold gt0, F32.ltb, F32.zero, F32.sub.
  apply SFsub_gt0; [reflexivity | exact Va | exact Vb].
Qed.

Lemma monotony_cons (x y : F32.t) (r : list F32.t) :
  monotony (x :: y :: r) = gt0 (F32.sub y x) && monotony (y :: r).
Proof. reflexivity. Qed.

(** The check computes the pairwise comparison on valid float32 data. *)
Lemma monotony_increasing (a : list F32.t) :
  forallb F32.valid a = true -> monotony a = increasing a.
Proof.
  induction a as [ | x [ | y r] IH]; intros V; try reflexivity.
  rewrite monotony_cons. cbn [increasing].
  cbn [forallb] in V. apply andb_true_iff in V as [Vx V].
  pose proof V as V'. cbn [forallb] in V'. apply andb_true_iff in V' as [Vy _].
  rewrite f32_sub_gt0 by assumption.
  rewrite IH by exact V. reflexivity.
Qed.

Lemma increasing_spec (a : list F32.t) :
  increasing a = true <-> strictly_increasing a.
Proof.
  unfold strictly_increasing.
  induction a as [ | x [ | y r] IH].
  - split; [intros _ i Hi; cbn in Hi; lia | reflexivity].
  - split; [intros _ i Hi; cbn in Hi; lia | reflexivity].
  - cbn [increasing]. rewrite andb_true_iff, IH. split.
    + intros [Hxy Hr] [ | i] Hi; [exact Hxy | ].
      apply (Hr i). cbn [length] in *. lia.
    + intros H. split.
      * apply (H 0%nat). cbn [length]. lia.
      * intros i Hi. apply (H (S i)). cbn [length] in *. lia.
Qed.

(** C6. The monotonicity check [np.all(np.diff(a) > 0)] holds of a float32
    sequence exactly when every consecutive pair satisfies
    [a[i+1] > a[i]]; it holds of the empty and of every one-element
    sequence; and [1,2,3] passes, [1,3,2] fails, [5] passes, [] passes,
    [2,2,3] fails. *)
Theorem monotony_spec :
  (forall a : list F32.t,
     forallb F32.valid a = true ->
     (monotony a = true <-> strictly_increasing a)) /\
  monotony [] = true /\
  (forall x : F32.t, monotony [x] = true) /\
  monotony [F32.of_Z 1; F32.of_Z 2; F32.of_Z 3] = true /\
  monotony [F32.of_Z 1; F32.of_Z 3; F32.of_Z 2] = false /\
  monotony [F32.of_Z 5] = true /\
  monotony [F32.of_Z 2; F32.of_Z 2; F32.of_Z 3] = false.
Proof.
  split; [ | repeat split].
  intros a V. rewrite monotony_increasing by exact V. apply increasing_spec.
Qed.

Lemma monotony_spec_witness :
  monotony [F32.of_Z 1; F32.of_Z 2; F32.of_Z 3] = true <->
  strictly_increasing [F32.of_Z 1; F32.of_Z 2; F32.of_Z 3].
Proof.
  apply (proj1 monotony_spec). reflexivity.
Defined.

(** * Loading *)

(** Runs the monad's plumbing, leaving the program's own functions folded. *)
Ltac run_py :=
  cbv beta iota zeta delta
    [bind try_except emit ret print lift raise when sys_exit];
  cbn [fst snd app].

Lemma length_nband : length nband = 13%nat.
Proof. reflexivity. Qed.

Lemma length_alt : length alt = 4%nat.
Proof. reflexivity. Qed.

Lemma length_rtoa : length rtoa = 20%nat.
Proof. vm_compute. reflexivity. Qed.

Lemma length_tau30 : length tau30 = 27%nat.
Proof. vm_compute. reflexivity. Qed.

Lemma length_tau15 : length tau15 = 25%nat.
Proof. vm_compute. reflexivity. Qed.

Lemma reshape_ok (fdata : list F32.t) (d0 d1 d2 d3 : nat) :
  length fdata = (d0 * d1 * d2 * d3)%nat ->
  reshape fdata d0 d1 d2 d3 =
  Some {| nd_data := fdata; nd_shape := (d0, d1, d2, d3) |}.
Proof. intros H. unfold reshape. rewrite H, Nat.eqb_refl. reflexivity. Qed.

Lemma reshape_fail (fdata : list F32.t) (d0 d1 d2 d3 : nat) :
  length fdata <> (d0 * d1 * d2 * d3)%nat ->
  reshape fdata d0 d1 d2 d3 = None.
Proof.
  intros H. unfold reshape.
  destruct (Nat.eqb_spec (length fdata) (d0 * d1 * d2 * d3)); [contradiction | reflexivity].
Qed.

Lemma load_cases (w : world) (a : args) (fdata : list F32.t) :
  w_open w (FILE a) = inr fdata ->
  load w a =
  match reshape fdata 13 (length rtoa) 27 4 with
  | Some minilut =>
      (EOpen (FILE a) ::
         (if verbose a
          then [EPrint ("INFO: successfuly opened " ++ FILE a)%string] else []),
       Ok (tau30, minilut, "LUT30"%string))
  | None =>
      ([EOpen (FILE a); EPrint fallback_warning],
       match reshape fdata 13 (length rtoa) 25 4 with
       | Some minilut => Ok (tau15, minilut, "LUT15"%string)
       | None => Raise ValueError
       end)
  end.
Proof.
  intros Hopen. unfold load, open_fromfile.
  rewrite Hopen, length_nband, length_tau30, length_tau15, length_alt.
  run_py.
  destruct (reshape fdata 13 (length rtoa) 27 4) as [minilut | ]; run_py.
  - destruct (verbose a); reflexivity.
  - destruct (reshape fdata 13 (length rtoa) 25 4) as [minilut | ]; reflexivity.
Qed.

Lemma load_extended (w : world) (a : args) (fdata : list F32.t) :
  w_open w (FILE a) = inr fdata ->
  size fdata = 13 * Z.of_nat (length rtoa) * 27 * 4 ->
  load w a =
  (EOpen (FILE a) ::
     (if verbose a
      then [EPrint ("INFO: successfuly opened " ++ FILE a)%string] else []),
   Ok (tau30,
       {| nd_data := fdata; nd_shape := (13, length rtoa, 27, 4)%nat |},
       "LUT30"%string)).
Proof.
  intros Hopen Hlen. unfold size in Hlen.
  rewrite (load_cases w a fdata Hopen), reshape_ok by lia. reflexivity.
Qed.

Lemma load_legacy (w : world) (a : args) (fdata : list F32.t) :
  w_open w (FILE a) = inr fdata ->
  size fdata = 13 * Z.of_nat (length rtoa) * 25 * 4 ->
  load w a =
  ([EOpen (FILE a); EPrint fallback_warning],
   Ok (tau15,
       {| nd_data := fdata; nd_shape := (13, length rtoa, 25, 4)%nat |},
       "LUT15"%string)).
Proof.
  intros Hopen Hlen.
  unfold size in Hlen. pose proof length_rtoa as Hr.
  rewrite (load_cases w a fdata Hopen).
  rewrite reshape_fail by lia. rewrite reshape_ok by lia. reflexivity.
Qed.

Lemma load_unrecognized (w : world) (a : args) (fdata : list F32.t) :
  w_open w (FILE a) = inr fdata ->
  size fdata <> 13 * Z.of_nat (length rtoa) * 27 * 4 ->
  size fdata <> 13 * Z.of_nat (length rtoa) * 25 * 4 ->
  load w a = ([EOpen (FILE a); EPrint fallback_warning], Raise ValueError).
Proof.
  intros Hopen H30 H15.
  unfold size in H30, H15.
  rewrite (load_cases w a fdata Hopen).
  rewrite !reshape_fail by lia. reflexivity.
Qed.

(** * Plotting *)

Lemma bind_ret {A B : Type} (a : A) (k : A -> M B) : bind (ret a) k = k a.
Proof. unfold bind, ret. cbn. destruct (k a); reflexivity. Qed.

Lemma bind_trace {A B : Type} (t : list event) (r : result A) (k : A -> M B) :
  bind (t, r) k =
  match r with
  | Ok a => (t ++ fst (k a), snd (k a))
  | Raise e => (t, Raise e)
  end.
Proof. destruct r; reflexivity. Qed.

Lemma quiet_bind {A B : Type} (m : M A) (k : A -> M B) :
  quiet m -> (forall a, quiet (k a)) -> quiet (bind m k).
Proof.
  intros Hm Hk f. unfold bind. destruct (snd m) as [a | e] eqn:E; cbn [fst].
  - intros H. apply in_app_or in H as [H | H]; [exact (Hm f H) | exact (Hk a f H)].
  - apply Hm.
Qed.

Lemma quiet_emit (ev : event) : (forall f, ev <> ESavefig f) -> quiet (emit ev).
Proof. intros H f [E | []]. exact (H f E). Qed.

Lemma quiet_ret {A : Type} (a : A) : quiet (ret a).
Proof. intros f []. Qed.

Lemma quiet_raise {A : Type} (e : exn) : quiet (@raise A e).
Proof. intros f []. Qed.

Lemma quiet_lift {A : Type} (o : option A) (e : exn) : quiet (lift o e).
Proof. destruct o; [apply quiet_ret | apply quiet_raise]. Qed.

Lemma quiet_when (b : bool) (m : M unit) : quiet m -> quiet (when b m).
Proof. destruct b; [trivial | intros _; apply quiet_ret]. Qed.

Lemma quiet_for_each {A : Type} (l : list A) (body : A -> M unit) :
  (forall x, quiet (body x)) -> quiet (for_each l body).
Proof.
  intros H. induction l as [ | x r IH]; cbn [for_each].
  - apply quiet_ret.
  - apply quiet_bind; [apply H | intros _; exact IH].
Qed.

Create HintDb quiet.
#[local] Hint Resolve quiet_ret quiet_raise quiet_lift quiet_when
  quiet_for_each : quiet.

Ltac quiet_step :=
  first [ solve [auto with quiet]
        | apply quiet_emit; discriminate
        | apply quiet_when
        | apply quiet_for_each; intros ?
        | match goal with
          | |- quiet (if ?b then _ else _) => destruct b
          | |- quiet (match ?l with [] => _ | _ :: _ => _ end) => destruct l
          end
        | apply quiet_bind; [ | intros ? ] ].

Lemma quiet_plot_aot rtoa tau minilut band level t :
  quiet (plot_aot rtoa tau minilut band level t).
Proof.
  unfold plot_aot, print. repeat quiet_step.
Qed.

Lemma quiet_draw rtoa tau minilut alt vband band level dims showall :
  quiet (draw rtoa tau minilut alt vband band level dims showall).
Proof.
  unfold draw. repeat quiet_step.
Qed.

Lemma quiet_load (w : world) (a : args) : quiet (load w a).
Proof.
  intros f. destruct (w_open w (FILE a)) as [e | fdata] eqn:E.
  - unfold load, open_fromfile. rewrite E.
    destruct e; run_py; cbn [In]; intuition discriminate.
  - rewrite (load_cases w a fdata E).
    destruct (reshape fdata 13 (length rtoa) 27 4);
      [destruct (verbose a) | ]; cbn [fst In]; intuition discriminate.
Qed.

Lemma plot_aot_ok rtoa tau minilut band level t curve aot :
  slice minilut band t level = Some curve ->
  py_index tau t = Some aot ->
  length rtoa = length curve ->
  plot_aot rtoa tau minilut band level t =
  (EPlot ("AOT=" ++ fmt_4_2f aot)%string curve ::
     (if monotony curve then [] else [EPrint (nonmonotone_warning aot)]),
   Ok tt).
Proof.
  intros Hs Ht Hl. unfold plot_aot. rewrite Hs, Ht. run_py.
  rewrite Hl, Nat.eqb_refl. destruct (monotony curve); reflexivity.
Qed.

(** * The whole run *)

Lemma main_validated (w : world) (a : args) :
  band a <= 13 -> level a <= 4 ->
  main w a =
  (info_line a, Ok tt) ;;
  loaded <- load w a ;;
  (let '(tau, minilut, ftau) := loaded in
   miniplot w rtoa tau minilut alt vband (fname a)
            (band a) (level a) ftau (verbose a) (all a) ;;
   print "INFO: Done..." ;;
   sys_exit 0).
Proof.
  intros Hb Hl. unfold main. rewrite length_nband, length_alt.
  destruct (Z.gtb_spec (band a) (Z.of_nat 13)) as [H | _]; [cbn in H; lia | ].
  destruct (Z.gtb_spec (level a) (Z.of_nat 4)) as [H | _]; [cbn in H; lia | ].
  rewrite !bind_ret. unfold info_line, when, print, emit, ret.
  destruct (verbose a); reflexivity.
Qed.

Lemma main_not_loaded (w : world) (a : args) t1 e :
  band a <= 13 -> level a <= 4 ->
  load w a = (t1, Raise e) ->
  main w a = (info_line a ++ t1, Raise e).
Proof.
  intros Hb Hl Hload. rewrite (main_validated w a Hb Hl), Hload. reflexivity.
Qed.

Lemma main_not_drawn (w : world) (a : args) t1 tau minilut ftau t2 e :
  band a <= 13 -> level a <= 4 ->
  load w a = (t1, Ok (tau, minilut, ftau)) ->
  draw rtoa tau minilut alt vband (band a) (level a) ftau (all a) = (t2, Raise e) ->
  main w a = (info_line a ++ t1 ++ t2, Raise e).
Proof.
  intros Hb Hl Hload Hdraw.
  rewrite (main_validated w a Hb Hl), Hload. run_py.
  unfold miniplot. rewrite Hdraw. reflexivity.
Qed.

Lemma main_drawn (w : world) (a : args) t1 tau minilut ftau t2 :
  band a <= 13 -> level a <= 4 ->
  load w a = (t1, Ok (tau, minilut, ftau)) ->
  draw rtoa tau minilut alt vband (band a) (level a) ftau (all a) = (t2, Ok tt) ->
  main w a =
  (info_line a ++ t1 ++ t2 ++ ESavefig (fname a) :: fst (after_savefig w a),
   snd (after_savefig w a)).
Proof.
  intros Hb Hl Hload Hdraw.
  rewrite (main_validated w a Hb Hl), Hload. run_py.
  unfold miniplot. rewrite Hdraw.
  unfold savefig, after_savefig, show_events.
  destruct (w_savefig w (fname a)) as [[] | ]; destruct (verbose a); run_py.
  all: rewrite <- ?app_assoc; reflexivity.
Qed.

Lemma main_band_rejected (w : world) (a : args) :
  13 < band a ->
  main w a = ([EPrint "ERROR: Band number out of range"], Raise (SystemExit 1)).
Proof.
  intros H. unfold main. rewrite length_nband.
  destruct (Z.gtb_spec (band a) (Z.of_nat 13)) as [_ | H']; [reflexivity | cbn in H'; lia].
Qed.

Lemma main_level_rejected (w : world) (a : args) :
  band a <= 13 -> 4 < level a ->
  main w a = ([EPrint "ERROR: Level out of range"], Raise (SystemExit 1)).
Proof.
  intros Hb H. unfold main. rewrite length_nband, length_alt.
  destruct (Z.gtb_spec (band a) (Z.of_nat 13)) as [H' | _]; [cbn in H'; lia | ].
  destruct (Z.gtb_spec (level a) (Z.of_nat 4)) as [_ | H']; [reflexivity | cbn in H'; lia].
Qed.

Lemma quiet_info_line (a : args) f : ~ In (ESavefig f) (info_line a).
Proof.
  unfold info_line. destruct (verbose a); cbn [In]; intuition discriminate.
Qed.

(** A run that calls [savefig] has passed validation, loading and drawing;
    the call is the only one and its argument is [fname a]. *)
Lemma main_savefig_inv (w : world) (a : args) (f : string) :
  In (ESavefig f) (fst (main w a)) ->
  f = fname a /\
  exists t,
    main w a = (t ++ ESavefig (fname a) :: fst (after_savefig w a),
                snd (after_savefig w a)).
Proof.
  intros Hin.
  destruct (Z.lt_ge_cases 13 (band a)) as [Hb | Hb].
  { rewrite main_band_rejected in Hin by exact Hb.
    cbn [fst In] in Hin. intuition discriminate. }
  destruct (Z.lt_ge_cases 4 (level a)) as [Hl | Hl].
  { rewrite main_level_rejected in Hin by assumption.
    cbn [fst In] in Hin. intuition discriminate. }
  destruct (load w a) as [t1 [[[tau minilut] ftau] | e]] eqn:Hload.
  2:{ rewrite (main_not_loaded w a t1 e Hb Hl Hload) in Hin. cbn [fst] in Hin.
      apply in_app_or in Hin as [Hin | Hin].
      - destruct (quiet_info_line a f Hin).
      - pose proof (quiet_load w a f) as Q. rewrite Hload in Q. destruct (Q Hin). }
  destruct (draw rtoa tau minilut alt vband (band a) (level a) ftau (all a))
    as [t2 [[] | e]] eqn:Hdraw.
  2:{ rewrite (main_not_drawn w a _ _ _ _ _ _ Hb Hl Hload Hdraw) in Hin.
      cbn [fst] in Hin.
      apply in_app_or in Hin as [Hin | Hin]; [destruct (quiet_info_line a f Hin) | ].
      apply in_app_or in Hin as [Hin | Hin].
      - pose proof (quiet_load w a f) as Q. rewrite Hload in Q. destruct (Q Hin).
      - pose proof (quiet_draw rtoa tau minilut alt vband (band a) (level a)
                      ftau (all a) f) as Q.
        rewrite Hdraw in Q. destruct (Q Hin). }
  rewrite (main_drawn w a _ _ _ _ _ Hb Hl Hload Hdraw) in Hin |- *.
  split.
  - cbn [fst] in Hin.
    apply in_app_or in Hin as [Hin | Hin]; [destruct (quiet_info_line a f Hin) | ].
    apply in_app_or in Hin as [Hin | Hin].
    { pose proof (quiet_load w a f) as Q. rewrite Hload in Q. destruct (Q Hin). }
    apply in_app_or in Hin as [Hin | Hin].
    { pose proof (quiet_draw rtoa tau minilut alt vband (band a) (level a)
                    ftau (all a) f) as Q.
      rewrite Hdraw in Q. destruct (Q Hin). }
    destruct Hin as [E | Hin]; [congruence | ].
    unfold after_savefig, show_events in Hin.
    destruct (w_savefig w (fname a)) as [[] | ]; destruct (verbose a);
      cbn [fst In app] in Hin; intuition discriminate.
  - exists (info_line a ++ t1 ++ t2). rewrite <- !app_assoc. reflexivity.
Qed.

(** * Output file name *)

Lemma string_length_append (s1 s2 : string) :
  String.length (s1 ++ s2) = (String.length s1 + String.length s2)%nat.
Proof. induction s1 as [ | c s1 IH]; cbn; [reflexivity | now rewrite IH]. Qed.

Lemma substring_0_append (s1 s2 : string) :
  substring 0 (String.length s1) (s1 ++ s2) = s1.
Proof.
  induction s1 as [ | c s1 IH]; cbn.
  - destruct s2; reflexivity.
  - now rewrite IH.
Qed.

Lemma drop_last4_append (stem suffix : string) :
  String.length suffix = 4%nat -> drop_last4 (stem ++ suffix) = stem.
Proof.
  intros H. unfold drop_last4. rewrite string_length_append, H.
  replace (String.length stem + 4 - 4)%nat with (String.length stem) by lia.
  apply substring_0_append.
Qed.

Lemma drop_last4_short (s : string) :
  (String.length s <= 4)%nat -> drop_last4 s = ""%string.
Proof.
  intros H. unfold drop_last4.
  replace (String.length s - 4)%nat with 0%nat by lia.
  destruct s; reflexivity.
Qed.

(** C2, as the code has it. The output name is the input name without its
    last four characters (without all of them when there are at most
    four), followed by [_B<band+1>_L<level>.png]; it is the name every call
    to [savefig] of a run receives. For ["sample.minilut"], band 1 and
    level 0 it is ["sample.min_B2_L0.png"]. *)
Theorem fname_spec :
  (forall (stem suffix : string) (a : args),
     FILE a = (stem ++ suffix)%string -> String.length suffix = 4%nat ->
     fname a =
     (stem ++ "_B" ++ str (band a + 1) ++ "_L" ++ str (level a) ++ ".png")%string) /\
  (forall a : args,
     (String.length (FILE a) <= 4)%nat ->
     fname a = ("_B" ++ str (band a + 1) ++ "_L" ++ str (level a) ++ ".png")%string) /\
  (forall (w : world) (a : args) (f : string),
     In (ESavefig f) (fst (main w a)) -> f = fname a) /\
  fname (cli "sample.minilut" 1 0) = "sample.min_B2_L0.png"%string.
Proof.
  repeat split.
  - intros stem suffix a HF Hs. unfold fname.
    rewrite HF, drop_last4_append by exact Hs. reflexivity.
  - intros a H. unfold fname. rewrite drop_last4_short by exact H. reflexivity.
  - intros w a f H. apply (main_savefig_inv w a f H).
Qed.

Lemma fname_spec_witness :
  fname (cli "sample.minilut" 1 0) =
  ("sample.min" ++ "_B" ++ str (1 + 1) ++ "_L" ++ str 0 ++ ".png")%string /\
  fname (cli "lut" 0 0) = ("_B" ++ str (0 + 1) ++ "_L" ++ str 0 ++ ".png")%string /\
  "sample.min_B2_L0.png"%string = fname (cli "sample.minilut" 1 0).
Proof.
  destruct fname_spec as (H1 & H2 & H3 & _).
  split; [ | split].
  - apply (H1 "sample.min"%string "ilut"%string (cli "sample.minilut" 1 0));
      reflexivity.
  - apply (H2 (cli "lut" 0 0)). cbn. lia.
  - apply (H3 (world_with extended_buffer) (cli "sample.minilut" 1 0)).
    vm_compute. do 11 right. left. reflexivity.
Defined.

(** C2 fails on the code: four characters are less than the extension
    [.minilut], and the name keeps [.min]. *)
Lemma fname_counterexample :
  fname (cli "sample.minilut" 1 0) <> "sample_B2_L0.png"%string.
Proof. vm_compute. discriminate. Qed.

(** * AOT sampling *)

(** C8. The AOT indices plotted are [0, 8, 16, 24, 25, 26] for the flag of
    the axis up to 3.0 and [0, 8, 16, 24] for the flag of the axis up to 1.5;
    with [--all] they are all the indices of the AOT axis, whatever the
    flag: 27 of them for the first axis, 25 for the second. *)
Theorem tau_sampling_spec :
  tau_sampling "LUT30" false tau30 = Some [0; 8; 16; 24; 25; 26] /\
  tau_sampling "LUT15" false tau15 = Some [0; 8; 16; 24] /\
  (forall (dims : string) (tau : list B64.t),
     tau_sampling dims true tau = Some (map Z.of_nat (seq 0 (length tau)))) /\
  tau_sampling "LUT30" true tau30 = Some (map Z.of_nat (seq 0 27)) /\
  tau_sampling "LUT15" true tau15 = Some (map Z.of_nat (seq 0 25)).
Proof.
  repeat split.
Qed.

(** * Saving the figure *)

(** C9. When the call to [savefig] raises [PermissionError], the exception
    is caught and the warning printed; the run goes on to the optional
    display, prints the completion message and exits with status 0. *)
Theorem savefig_permission_error (w : world) (a : args) (f : string) :
  In (ESavefig f) (fst (main w a)) ->
  w_savefig w f = Some PermissionError ->
  snd (main w a) = Raise (SystemExit 0) /\
  exit_status (snd (main w a)) = 0 /\
  exists t,
    fst (main w a) =
    t ++ ESavefig f :: EPrint permission_warning
      :: show_events a ++ [EPrint "INFO: Done..."].
Proof.
  intros Hin Hperm.
  destruct (main_savefig_inv w a f Hin) as (-> & t & E).
  rewrite E. unfold after_savefig. rewrite Hperm. cbn [fst snd].
  repeat split. exists t. reflexivity.
Qed.

Lemma savefig_permission_error_witness :
  snd (main (world_readonly extended_buffer) (cli "sample.minilut" 1 0)) =
  Raise (SystemExit 0) /\
  exit_status (snd (main (world_readonly extended_buffer) (cli "sample.minilut" 1 0))) = 0 /\
  exists t,
    fst (main (world_readonly extended_buffer) (cli "sample.minilut" 1 0)) =
    t ++ ESavefig "sample.min_B2_L0.png" :: EPrint permission_warning
      :: show_events (cli "sample.minilut" 1 0) ++ [EPrint "INFO: Done..."].
Proof.
  apply (savefig_permission_error (world_readonly extended_buffer)
           (cli "sample.minilut" 1 0) "sample.min_B2_L0.png").
  - vm_compute. do 11 right. left. reflexivity.
  - reflexivity.
Defined.

(** * Indexing *)

Lemma axis_index_in (n : nat) (i : Z) :
  in_axis n i ->
  axis_index n i = Some (Z.to_nat (i mod Z.of_nat n)) /\
  (Z.to_nat (i mod Z.of_nat n) < n)%nat.
Proof.
  unfold in_axis, axis_index. intros H.
  destruct (Z.ltb_spec i (- Z.of_nat n)); [lia | ].
  destruct (Z.leb_spec (Z.of_nat n) i); [lia | ]. cbn [orb].
  destruct (Z.ltb_spec i 0).
  - assert (E : i mod Z.of_nat n = i + Z.of_nat n)
      by (symmetry; apply Z.mod_unique with (q := -1); lia).
    rewrite E. split; [reflexivity | lia].
  - rewrite Z.mod_small by lia. split; [reflexivity | lia].
Qed.

Lemma axis_index_out (n : nat) (i : Z) :
  ~ in_axis n i -> axis_index n i = None.
Proof.
  unfold in_axis, axis_index. intros H.
  destruct (Z.ltb_spec i (- Z.of_nat n)); [reflexivity | ].
  destruct (Z.leb_spec (Z.of_nat n) i); [reflexivity | lia].
Qed.

(** A negative index and its distance from the end denote the same element. *)
Lemma axis_index_mod (n : nat) (i : Z) :
  in_axis n i -> axis_index n (i mod Z.of_nat n) = axis_index n i.
Proof.
  intros H. destruct (axis_index_in n i H) as [E _]. rewrite E.
  assert (Hn : 0 < Z.of_nat n) by (unfold in_axis in H; lia).
  pose proof (Z.mod_pos_bound i (Z.of_nat n) Hn) as Hm.
  destruct (axis_index_in n (i mod Z.of_nat n)) as [E' _];
    [unfold in_axis; lia | ].
  rewrite E', Z.mod_mod by lia. reflexivity.
Qed.

Lemma py_index_in {A : Type} (l : list A) (i : Z) :
  in_axis (length l) i -> exists x, py_index l i = Some x.
Proof.
  intros H. unfold py_index.
  destruct (axis_index_in _ i H) as [E Hlt]. rewrite E.
  destruct (nth_error l (Z.to_nat (i mod Z.of_nat (length l)))) as [x | ] eqn:N.
  - now exists x.
  - apply nth_error_None in N. lia.
Qed.

Lemma py_index_out {A : Type} (l : list A) (i : Z) :
  ~ in_axis (length l) i -> py_index l i = None.
Proof. intros H. unfold py_index. now rewrite axis_index_out. Qed.

Lemma py_index_mod {A : Type} (l : list A) (i : Z) :
  in_axis (length l) i -> py_index l (i mod Z.of_nat (length l)) = py_index l i.
Proof. intros H. unfold py_index. now rewrite axis_index_mod. Qed.

Lemma slice_in (minilut : ndarray4) (d0 d1 d2 d3 : nat) (band t level : Z) :
  nd_shape minilut = (d0, d1, d2, d3) ->
  in_axis d0 band -> in_axis d2 t -> in_axis d3 level ->
  exists curve, slice minilut band t level = Some curve /\ length curve = d1.
Proof.
  intros Hs Hb Ht Hl. unfold slice. rewrite Hs.
  destruct (axis_index_in _ _ Hb) as [-> _].
  destruct (axis_index_in _ _ Ht) as [-> _].
  destruct (axis_index_in _ _ Hl) as [-> _].
  eexists. split; [reflexivity | ]. now rewrite length_map, length_seq.
Qed.

Lemma slice_mod (minilut : ndarray4) (d0 d1 d2 d3 : nat) (band t level : Z) :
  nd_shape minilut = (d0, d1, d2, d3) ->
  in_axis d0 band -> in_axis d3 level ->
  slice minilut (band mod Z.of_nat d0) t (level mod Z.of_nat d3) =
  slice minilut band t level.
Proof.
  intros Hs Hb Hl. unfold slice. rewrite Hs.
  now rewrite (axis_index_mod _ _ Hb), (axis_index_mod _ _ Hl).
Qed.

Lemma slice_valid (minilut : ndarray4) (band t level : Z) (curve : list F32.t) :
  forallb F32.valid (nd_data minilut) = true ->
  slice minilut band t level = Some curve ->
  forallb F32.valid curve = true.
Proof.
  intros V. unfold slice.
  destruct (nd_shape minilut) as [[[d0 d1] d2] d3].
  destruct (axis_index d0 band) as [b | ]; [ | discriminate].
  destruct (axis_index d2 t) as [k | ]; [ | discriminate].
  destruct (axis_index d3 level) as [l | ]; [ | discriminate].
  intros [= <-]. apply forallb_forall. intros x Hx.
  apply in_map_iff in Hx as (r & <- & _).
  destruct (nth_in_or_default (((b * d1 + r) * d2 + k) * d3 + l)%nat
              (nd_data minilut) F32.zero) as [Hin | ->].
  - rewrite forallb_forall in V. apply V. exact Hin.
  - reflexivity.
Qed.

(** * Drawing *)

Lemma for_each_ext {A : Type} (l : list A) (f g : A -> M unit) :
  (forall x, f x = g x) -> for_each l f = for_each l g.
Proof.
  intros H. induction l as [ | x r IH]; cbn [for_each]; [reflexivity | ].
  now rewrite H, IH.
Qed.

Lemma for_each_returns {A : Type} (l : list A) (body : A -> M unit) :
  Forall (fun x => snd (body x) = Ok tt) l -> snd (for_each l body) = Ok tt.
Proof.
  induction 1 as [ | x r Hx _ IH]; cbn [for_each]; [reflexivity | ].
  unfold bind. rewrite Hx. exact IH.
Qed.

Lemma plot_aot_returns rtoa0 tau minilut (d0 d2 d3 : nat) band level t :
  nd_shape minilut = (d0, length rtoa0, d2, d3) ->
  in_axis d0 band -> in_axis d3 level ->
  in_axis d2 t -> in_axis (length tau) t ->
  snd (plot_aot rtoa0 tau minilut band level t) = Ok tt.
Proof.
  intros Hs Hb Hl Ht Htau.
  destruct (slice_in _ _ _ _ _ _ _ _ Hs Hb Ht Hl) as (curve & Hc & Hlen).
  destruct (py_index_in tau t Htau) as (aot & Ha).
  now rewrite (plot_aot_ok _ _ _ _ _ _ _ _ Hc Ha (eq_sym Hlen)).
Qed.

(** The sampling stays inside an AOT axis that is long enough. *)
Lemma tau_sampling_in_axis dims showall tau ts :
  tau_sampling dims showall tau = Some ts ->
  ((dims =? "LUT30")%string = true -> (27 <= length tau)%nat) ->
  ((dims =? "LUT15")%string = true -> (25 <= length tau)%nat) ->
  Forall (in_axis (length tau)) ts.
Proof.
  unfold tau_sampling. intros H H30 H15. destruct showall.
  - injection H as <-. apply Forall_forall. intros t Ht.
    apply in_map_iff in Ht as (k & <- & Hk). apply in_seq in Hk.
    unfold in_axis. lia.
  - destruct (dims =? "LUT30")%string.
    + injection H as <-. specialize (H30 eq_refl).
      repeat constructor; unfold in_axis; lia.
    + destruct (dims =? "LUT15")%string; [ | discriminate].
      injection H as <-. specialize (H15 eq_refl).
      repeat constructor; unfold in_axis; lia.
Qed.

Lemma length_vband : length vband = 13%nat.
Proof. reflexivity. Qed.

Lemma draw_returns rtoa0 tau minilut band level dims showall ts :
  nd_shape minilut = (13, length rtoa0, length tau, 4)%nat ->
  rtoa0 <> [] ->
  in_axis 13 band -> in_axis 4 level ->
  tau_sampling dims showall tau = Some ts ->
  Forall (in_axis (length tau)) ts ->
  exists wavelength altitude t,
    draw rtoa0 tau minilut alt vband band level dims showall =
    (ESubplots :: ETitle wavelength altitude :: EIdentity :: t, Ok tt).
Proof.
  intros Hs Hne Hb Hl Hts Hin.
  destruct (py_index_in vband band Hb) as (wavelength & Hw).
  destruct (py_index_in alt level Hl) as (altitude & Ha).
  assert (Hloop : snd (for_each ts (plot_aot rtoa0 tau minilut band level)) = Ok tt).
  { apply for_each_returns. apply Forall_forall. intros t Ht.
    rewrite Forall_forall in Hin.
    apply (plot_aot_returns _ _ _ _ _ _ _ _ _ Hs Hb Hl (Hin t Ht) (Hin t Ht)). }
  exists wavelength, altitude. unfold draw. rewrite Hw, Ha, Hts.
  destruct rtoa0 as [ | x0 r0]; [contradiction | ].
  run_py. rewrite Hloop. run_py.
  eexists. reflexivity.
Qed.

Lemma draw_index_error rtoa0 tau minilut band level dims showall :
  ~ (in_axis 13 band /\ in_axis 4 level) ->
  draw rtoa0 tau minilut alt vband band level dims showall =
  ([ESubplots], Raise IndexError).
Proof.
  intros H. unfold draw.
  destruct (py_index vband band) as [wavelength | ] eqn:Hw; [ | reflexivity].
  rewrite py_index_out; [reflexivity | ].
  intros Hl. apply H. split; [ | exact Hl].
  unfold in_axis. unfold py_index, axis_index in Hw. rewrite length_vband in Hw.
  destruct (Z.ltb_spec band (- Z.of_nat 13)); [discriminate | ].
  destruct (Z.leb_spec (Z.of_nat 13) band); [discriminate | lia].
Qed.

Lemma draw_mod rtoa0 tau minilut (d1 d2 : nat) band level dims showall :
  nd_shape minilut = (13, d1, d2, 4)%nat ->
  in_axis 13 band -> in_axis 4 level ->
  draw rtoa0 tau minilut alt vband (band mod 13) (level mod 4) dims showall =
  draw rtoa0 tau minilut alt vband band level dims showall.
Proof.
  intros Hs Hb Hl. unfold draw.
  pose proof (py_index_mod vband band Hb) as Hv.
  pose proof (py_index_mod alt level Hl) as Ha.
  change (Z.of_nat (length vband)) with 13 in Hv.
  change (Z.of_nat (length alt)) with 4 in Ha.
  rewrite Hv, Ha.
  destruct (py_index vband band); [ | reflexivity].
  destruct (py_index alt level); [ | reflexivity].
  destruct rtoa0 as [ | x0 r0]; [reflexivity | ].
  destruct (tau_sampling dims showall tau) as [ts | ]; [ | reflexivity].
  run_py.
  rewrite (for_each_ext ts
             (plot_aot (x0 :: r0) tau minilut (band mod 13) (level mod 4))
             (plot_aot (x0 :: r0) tau minilut band level)); [reflexivity | ].
  intros t. unfold plot_aot.
  pose proof (slice_mod minilut _ _ _ _ band t level Hs Hb Hl) as E.
  change (Z.of_nat 13) with 13 in E. change (Z.of_nat 4) with 4 in E.
  now rewrite E.
Qed.

Lemma rtoa_nonempty : rtoa <> [].
Proof. intros E. pose proof length_rtoa as H. rewrite E in H. discriminate. Qed.

(** What [load] returns on a buffer of one of the two sizes. *)
Lemma load_returns (w : world) (a : args) (fdata : list F32.t) :
  w_open w (FILE a) = inr fdata ->
  size fdata = 13 * Z.of_nat (length rtoa) * 27 * 4 \/
  size fdata = 13 * Z.of_nat (length rtoa) * 25 * 4 ->
  exists t1 tau minilut ftau ts,
    load w a = (t1, Ok (tau, minilut, ftau)) /\
    drawn t1 = [] /\
    nd_data minilut = fdata /\
    nd_shape minilut = (13, length rtoa, length tau, 4)%nat /\
    tau_sampling ftau (all a) tau = Some ts /\
    Forall (in_axis (length tau)) ts.
Proof.
  intros Hopen [Hsize | Hsize].
  - pose proof (load_extended w a fdata Hopen Hsize) as E.
    destruct (tau_sampling "LUT30" (all a) tau30) as [ts | ] eqn:Hts;
      [ | destruct (all a); discriminate].
    do 5 eexists. split; [exact E | ].
    split; [destruct (verbose a); reflexivity | ].
    split; [reflexivity | ]. split; [now rewrite length_tau30 | ].
    split; [exact Hts | ].
    apply (tau_sampling_in_axis _ _ _ _ Hts); rewrite length_tau30; [lia | discriminate].
  - pose proof (load_legacy w a fdata Hopen Hsize) as E.
    destruct (tau_sampling "LUT15" (all a) tau15) as [ts | ] eqn:Hts;
      [ | destruct (all a); discriminate].
    do 5 eexists. split; [exact E | ].
    split; [reflexivity | ].
    split; [reflexivity | ]. split; [now rewrite length_tau15 | ].
    split; [exact Hts | ].
    apply (tau_sampling_in_axis _ _ _ _ Hts); rewrite length_tau15; [discriminate | lia].
Qed.

Lemma in_axis_dec (n : nat) (i : Z) : {in_axis n i} + {~ in_axis n i}.
Proof.
  unfold in_axis.
  destruct (Z_le_dec (- Z.of_nat n) i); [ | right; lia].
  destruct (Z_lt_dec i (Z.of_nat n)); [left; lia | right; lia].
Qed.

Lemma in_axis_bound (n : nat) (i : Z) : in_axis n i -> i <= Z.of_nat n.
Proof. unfold in_axis. lia. Qed.

Lemma drawn_app (t1 t2 : list event) : drawn (t1 ++ t2) = drawn t1 ++ drawn t2.
Proof. apply filter_app. Qed.

Lemma drawn_info_line (a : args) : drawn (info_line a) = [].
Proof. unfold info_line. destruct (verbose a); reflexivity. Qed.

Lemma drawn_after_savefig (w : world) (a : args) :
  drawn (fst (after_savefig w a)) = [].
Proof.
  unfold after_savefig, show_events.
  destruct (w_savefig w (fname a)) as [[] | ]; destruct (verbose a); reflexivity.
Qed.

(** A run on a file of one of the two sizes, with indices Python accepts:
    it loads, draws, and calls [savefig]. *)
Lemma main_completes (w : world) (a : args) (fdata : list F32.t) :
  w_open w (FILE a) = inr fdata ->
  size fdata = 13 * Z.of_nat (length rtoa) * 27 * 4 \/
  size fdata = 13 * Z.of_nat (length rtoa) * 25 * 4 ->
  in_axis 13 (band a) -> in_axis 4 (level a) ->
  exists t1 tau minilut ftau wavelength altitude t2,
    load w a = (t1, Ok (tau, minilut, ftau)) /\
    drawn t1 = [] /\
    nd_shape minilut = (13, length rtoa, length tau, 4)%nat /\
    draw rtoa tau minilut alt vband (band a) (level a) ftau (all a) =
    (ESubplots :: ETitle wavelength altitude :: EIdentity :: t2, Ok tt) /\
    main w a =
    (info_line a ++ t1 ++ (ESubplots :: ETitle wavelength altitude :: EIdentity :: t2)
       ++ ESavefig (fname a) :: fst (after_savefig w a),
     snd (after_savefig w a)).
Proof.
  intros Hopen Hsize Hb Hl.
  destruct (load_returns w a fdata Hopen Hsize)
    as (t1 & tau & minilut & ftau & ts & Hload & Hd & _ & Hs & Hts & Hin).
  destruct (draw_returns rtoa tau minilut (band a) (level a) ftau (all a) ts
              Hs rtoa_nonempty Hb Hl Hts Hin) as (wavelength & altitude & t2 & Hdraw).
  exists t1, tau, minilut, ftau, wavelength, altitude, t2.
  repeat (split; [assumption | ]).
  apply (main_drawn w a _ _ _ _ _ (in_axis_bound _ _ Hb) (in_axis_bound _ _ Hl)
           Hload Hdraw).
Qed.

Lemma after_savefig_exit (w : world) (a : args) :
  w_savefig w (fname a) = None \/ w_savefig w (fname a) = Some PermissionError ->
  snd (after_savefig w a) = Raise (SystemExit 0).
Proof. unfold after_savefig. intros [-> | ->]; reflexivity. Qed.

Lemma draw_starts rtoa0 tau minilut band level dims showall :
  exists t,
    fst (draw rtoa0 tau minilut alt vband band level dims showall) = ESubplots :: t.
Proof. unfold draw. unfold bind at 1. cbn [emit fst snd app]. eexists. reflexivity. Qed.

(** A run that passes validation and loads starts drawing. *)
Lemma main_starts_drawing (w : world) (a : args) t1 tau minilut ftau :
  band a <= 13 -> level a <= 4 ->
  load w a = (t1, Ok (tau, minilut, ftau)) ->
  exists t, fst (main w a) = info_line a ++ t1 ++ ESubplots :: t.
Proof.
  intros Hb Hl Hload.
  destruct (draw rtoa tau minilut alt vband (band a) (level a) ftau (all a))
    as [t2 r] eqn:Hdraw.
  destruct (draw_starts rtoa tau minilut (band a) (level a) ftau (all a)) as [t Hs].
  rewrite Hdraw in Hs. cbn [fst] in Hs. subst t2.
  destruct r as [[] | e].
  - rewrite (main_drawn w a _ _ _ _ _ Hb Hl Hload Hdraw). cbn [fst].
    eexists. rewrite <- app_comm_cons. reflexivity.
  - rewrite (main_not_drawn w a _ _ _ _ _ _ Hb Hl Hload Hdraw). cbn [fst].
    eexists. reflexivity.
Qed.

(** * Loading, as seen from the whole run *)

(** C3. A buffer of exactly [13*len(rtoa)*27*4] float32 elements loads at
    the first attempt: the result is the four-dimensional array of shape
    [(13, len(rtoa), 27, 4)] over that buffer with the flag ["LUT30"], and
    no fallback warning is printed. *)
Theorem extended_buffer_loads (w : world) (a : args) (fdata : list F32.t) :
  w_open w (FILE a) = inr fdata ->
  size fdata = 13 * Z.of_nat (length rtoa) * 27 * 4 ->
  load w a =
  (EOpen (FILE a) ::
     (if verbose a
      then [EPrint ("INFO: successfuly opened " ++ FILE a)%string] else []),
   Ok (tau30,
       {| nd_data := fdata; nd_shape := (13, length rtoa, 27, 4)%nat |},
       "LUT30"%string)) /\
  ~ In (EPrint fallback_warning) (fst (load w a)).
Proof.
  intros Hopen Hlen. pose proof (load_extended w a fdata Hopen Hlen) as E.
  split; [exact E | ].
  rewrite E. cbn [fst]. intros [H | H]; [discriminate | ].
  destruct (verbose a); [destruct H as [H | []]; discriminate | destruct H].
Qed.

Lemma extended_buffer_loads_witness :
  load (world_with extended_buffer) (cli "sample.minilut" 0 0) =
  ([EOpen "sample.minilut"],
   Ok (tau30,
       {| nd_data := extended_buffer; nd_shape := (13, length rtoa, 27, 4)%nat |},
       "LUT30"%string)) /\
  ~ In (EPrint fallback_warning)
       (fst (load (world_with extended_buffer) (cli "sample.minilut" 0 0))).
Proof.
  apply (extended_buffer_loads (world_with extended_buffer)
           (cli "sample.minilut" 0 0) extended_buffer).
  - reflexivity.
  - vm_compute. reflexivity.
Defined.

(** C4. A buffer of exactly [13*len(rtoa)*25*4] float32 elements does not
    fit the first shape: the warning is printed, the second reshape
    succeeds, and the result is the array of shape [(13, len(rtoa), 25, 4)]
    with the flag ["LUT15"]. The run goes on: the plotter is entered right
    after the warning, and with indices inside their axes and a figure that
    can be written or is refused for lack of permission, the run exits with
    status 0. *)
Theorem legacy_buffer_falls_back (w : world) (a : args) (fdata : list F32.t) :
  w_open w (FILE a) = inr fdata ->
  size fdata = 13 * Z.of_nat (length rtoa) * 25 * 4 ->
  load w a =
  ([EOpen (FILE a); EPrint fallback_warning],
   Ok (tau15,
       {| nd_data := fdata; nd_shape := (13, length rtoa, 25, 4)%nat |},
       "LUT15"%string)) /\
  (band a <= 13 -> level a <= 4 ->
   exists t,
     fst (main w a) =
     info_line a ++ EOpen (FILE a) :: EPrint fallback_warning :: ESubplots :: t) /\
  (in_axis 13 (band a) -> in_axis 4 (level a) ->
   w_savefig w (fname a) = None \/ w_savefig w (fname a) = Some PermissionError ->
   snd (main w a) = Raise (SystemExit 0)).
Proof.
  intros Hopen Hlen. pose proof (load_legacy w a fdata Hopen Hlen) as E.
  split; [exact E | split].
  - intros Hb Hl. apply (main_starts_drawing w a _ _ _ _ Hb Hl E).
  - intros Hb Hl Hsave.
    destruct (main_completes w a fdata Hopen (or_intror Hlen) Hb Hl)
      as (t1 & tau & minilut & ftau & wl & al & t2 & _ & _ & _ & _ & Hmain).
    rewrite Hmain. cbn [snd]. apply after_savefig_exit. exact Hsave.
Qed.

Lemma legacy_buffer_falls_back_witness :
  load (world_with legacy_buffer) (cli "sample.minilut" 1 0) =
  ([EOpen "sample.minilut"; EPrint fallback_warning],
   Ok (tau15,
       {| nd_data := legacy_buffer; nd_shape := (13, length rtoa, 25, 4)%nat |},
       "LUT15"%string)) /\
  (exists t,
     fst (main (world_with legacy_buffer) (cli "sample.minilut" 1 0)) =
     [] ++ EOpen "sample.minilut" :: EPrint fallback_warning :: ESubplots :: t) /\
  snd (main (world_with legacy_buffer) (cli "sample.minilut" 1 0)) =
  Raise (SystemExit 0).
Proof.
  destruct (legacy_buffer_falls_back (world_with legacy_buffer)
              (cli "sample.minilut" 1 0) legacy_buffer) as (H1 & H2 & H3).
  - reflexivity.
  - vm_compute. reflexivity.
  - split; [exact H1 | split].
    + apply H2; cbn; lia.
    + apply H3; [unfold in_axis; cbn; lia | unfold in_axis; cbn; lia | ].
      left. reflexivity.
Defined.

(** C5. A buffer whose size fits neither shape: after the warning the
    second reshape raises [ValueError] inside the handler and nothing
    catches it. [load] returns no array, and a run that had passed the
    validation ends there with the uncaught exception, exit status 1,
    before any plotting. *)
Theorem unrecognized_buffer_fails (w : world) (a : args) (fdata : list F32.t) :
  w_open w (FILE a) = inr fdata ->
  size fdata <> 13 * Z.of_nat (length rtoa) * 27 * 4 ->
  size fdata <> 13 * Z.of_nat (length rtoa) * 25 * 4 ->
  load w a = ([EOpen (FILE a); EPrint fallback_warning], Raise ValueError) /\
  (band a <= 13 -> level a <= 4 ->
   main w a =
   (info_line a ++ [EOpen (FILE a); EPrint fallback_warning], Raise ValueError) /\
   exit_status (snd (main w a)) = 1).
Proof.
  intros Hopen H30 H15.
  pose proof (load_unrecognized w a fdata Hopen H30 H15) as E.
  split; [exact E | ]. intros Hb Hl.
  rewrite (main_not_loaded w a _ _ Hb Hl E). split; reflexivity.
Qed.

Lemma unrecognized_buffer_fails_witness :
  load (world_with [F32.zero]) (cli "sample.minilut" 0 0) =
  ([EOpen "sample.minilut"; EPrint fallback_warning], Raise ValueError) /\
  main (world_with [F32.zero]) (cli "sample.minilut" 0 0) =
  ([] ++ [EOpen "sample.minilut"; EPrint fallback_warning], Raise ValueError) /\
  exit_status (snd (main (world_with [F32.zero]) (cli "sample.minilut" 0 0))) = 1.
Proof.
  destruct (unrecognized_buffer_fails (world_with [F32.zero])
              (cli "sample.minilut" 0 0) [F32.zero]) as (H1 & H2).
  - reflexivity.
  - vm_compute. discriminate.
  - vm_compute. discriminate.
  - split; [exact H1 | ]. apply H2; cbn; lia.
Defined.

(** * Non-monotone curves *)

Lemma rtoa_min_max :
  match rtoa with [] => @raise unit ValueError | _ :: _ => ret tt end = ret tt.
Proof.
  pose proof rtoa_nonempty as Hne. destruct rtoa; [contradiction | reflexivity].
Qed.

Lemma slice_length (minilut : ndarray4) (d0 d1 d2 d3 : nat) band t level curve :
  nd_shape minilut = (d0, d1, d2, d3) ->
  slice minilut band t level = Some curve -> length curve = d1.
Proof.
  intros Hs. unfold slice. rewrite Hs.
  destruct (axis_index d0 band); [ | discriminate].
  destruct (axis_index d2 t); [ | discriminate].
  destruct (axis_index d3 level); [ | discriminate].
  intros [= <-]. now rewrite length_map, length_seq.
Qed.

(** A constant curve of at least two points fails the check, also when the
    constant is an infinity or NaN. *)
Lemma monotony_constant (v : F32.t) (n : nat) :
  F32.valid v = true -> monotony (repeat v (S (S n))) = false.
Proof.
  intros V. cbn [repeat]. rewrite monotony_cons.
  rewrite f32_sub_gt0 by exact V. unfold F32.ltb. now rewrite SFltb_irrefl.
Qed.

Lemma plot_aot_increasing rtoa0 tau minilut (d0 d2 d3 : nat) band level t curve aot :
  nd_shape minilut = (d0, length rtoa0, d2, d3) ->
  forallb F32.valid (nd_data minilut) = true ->
  slice minilut band t level = Some curve ->
  increasing curve = true ->
  py_index tau t = Some aot ->
  plot_aot rtoa0 tau minilut band level t =
  ([EPlot ("AOT=" ++ fmt_4_2f aot)%string curve], Ok tt).
Proof.
  intros Hs V Hc Hi Ha.
  rewrite (plot_aot_ok _ _ _ _ _ _ _ _ Hc Ha)
    by (symmetry; apply (slice_length _ _ _ _ _ _ _ _ _ Hs Hc)).
  rewrite monotony_increasing by (apply (slice_valid _ _ _ _ _ V Hc)).
  now rewrite Hi.
Qed.

Lemma nonmonotone_warnings_app (t1 t2 : list event) :
  nonmonotone_warnings (t1 ++ t2) = nonmonotone_warnings t1 ++ nonmonotone_warnings t2.
Proof. apply filter_app. Qed.

(** C7. An array of the first shape (valid float32 data) whose curve of
    band 0, level 0 at AOT index 8 is constant, the curves at the other
    default indices 0, 16, 24, 25, 26 increasing: plotting band 0 at level 0
    with the default sampling prints exactly one non-monotone warning, the
    one for the AOT value of index 8, which is 0.5. *)
Theorem one_warning_for_flat_curve
    (w : world) (minilut : ndarray4) (v : F32.t) (filename : string)
    (verbose : bool) :
  nd_shape minilut = (13, length rtoa, 27, 4)%nat ->
  forallb F32.valid (nd_data minilut) = true ->
  slice minilut 0 8 0 = Some (repeat v (length rtoa)) ->
  (forall t, In t [0; 16; 24; 25; 26] ->
     exists curve, slice minilut 0 t 0 = Some curve /\ increasing curve = true) ->
  nonmonotone_warnings
    (fst (miniplot w rtoa tau30 minilut alt vband filename 0 0 "LUT30"
            verbose false)) =
  [EPrint "WARNING: non-monotone fitting for AOT=0.50"] /\
  (exists aot, py_index tau30 8 = Some aot /\ B64.eqb aot (B64.lit 1 2) = true /\
     nonmonotone_warning aot = "WARNING: non-monotone fitting for AOT=0.50"%string).
Proof.
  intros Hs V H8 Hinc. split.
  2:{ eexists. split; [reflexivity | split; vm_compute; reflexivity]. }
  assert (V8 : F32.valid v = true).
  { pose proof (slice_valid _ _ _ _ _ V H8) as Vr. rewrite length_rtoa in Vr.
    cbn [repeat forallb] in Vr. now apply andb_true_iff in Vr as [Vr _]. }
  assert (Hplot : forall t aot, In t [0; 16; 24; 25; 26] ->
            py_index tau30 t = Some aot ->
            exists curve,
              plot_aot rtoa tau30 minilut 0 0 t =
              ([EPlot ("AOT=" ++ fmt_4_2f aot)%string curve], Ok tt)).
  { intros t aot Ht Ha. destruct (Hinc t Ht) as (curve & Hc & Hi).
    exists curve. apply (plot_aot_increasing _ _ _ _ _ _ _ _ _ _ _ Hs V Hc Hi Ha). }
  assert (Ha8 : exists aot, py_index tau30 8 = Some aot /\
            nonmonotone_warning aot =
            "WARNING: non-monotone fitting for AOT=0.50"%string).
  { eexists. split; [reflexivity | vm_compute; reflexivity]. }
  destruct Ha8 as (aot8 & Ha8 & Hw8).
  assert (Hplot8 : plot_aot rtoa tau30 minilut 0 0 8 =
            ([EPlot ("AOT=" ++ fmt_4_2f aot8)%string (repeat v (length rtoa));
              EPrint "WARNING: non-monotone fitting for AOT=0.50"], Ok tt)).
  { rewrite (plot_aot_ok _ _ _ _ _ _ _ _ H8 Ha8) by (now rewrite repeat_length).
    rewrite length_rtoa, monotony_constant by exact V8. now rewrite Hw8. }
  destruct (Hplot 0 _ ltac:(cbn; tauto) eq_refl) as (c0 & E0).
  destruct (Hplot 16 _ ltac:(cbn; tauto) eq_refl) as (c16 & E16).
  destruct (Hplot 24 _ ltac:(cbn; tauto) eq_refl) as (c24 & E24).
  destruct (Hplot 25 _ ltac:(cbn; tauto) eq_refl) as (c25 & E25).
  destruct (Hplot 26 _ ltac:(cbn; tauto) eq_refl) as (c26 & E26).
  clear Hplot Hinc.
  unfold miniplot, draw, savefig.
  change (py_index vband 0) with (Some 444).
  change (py_index alt 0) with (Some 0).
  change (tau_sampling "LUT30" false tau30) with (Some [0; 8; 16; 24; 25; 26]).
  rewrite rtoa_min_max. run_py.
  cbn [for_each]. rewrite E0, Hplot8, E16, E24, E25, E26.
  destruct (w_savefig w filename) as [[] | ]; destruct verbose; reflexivity.
Qed.

Lemma one_warning_for_flat_curve_witness :
  nonmonotone_warnings
    (fst (miniplot (world_with []) rtoa tau30 flat8_lut alt vband "out.png" 0 0
            "LUT30" false false)) =
  [EPrint "WARNING: non-monotone fitting for AOT=0.50"] /\
  (exists aot, py_index tau30 8 = Some aot /\ B64.eqb aot (B64.lit 1 2) = true /\
     nonmonotone_warning aot = "WARNING: non-monotone fitting for AOT=0.50"%string).
Proof.
  apply (one_warning_for_flat_curve (world_with []) flat8_lut (F32.of_Z 1)
           "out.png" false).
  - vm_compute. reflexivity.
  - vm_compute. reflexivity.
  - vm_compute. reflexivity.
  - intros t [<- | [<- | [<- | [<- | [<- | []]]]]];
      eexists; (split; [vm_compute; reflexivity | vm_compute; reflexivity]).
Defined.

(** * Negative indices *)

Lemma load_starts (w : world) (a : args) :
  exists t, fst (load w a) = EOpen (FILE a) :: t.
Proof.
  destruct (w_open w (FILE a)) as [e | fdata] eqn:E.
  - unfold load, open_fromfile. rewrite E.
    destruct e; run_py; eexists; reflexivity.
  - rewrite (load_cases w a fdata E).
    destruct (reshape fdata 13 (length rtoa) 27 4); eexists; reflexivity.
Qed.

(** A run that passes the validation opens the input file first. *)
Lemma main_opens (w : world) (a : args) :
  band a <= 13 -> level a <= 4 ->
  exists t, fst (main w a) = info_line a ++ EOpen (FILE a) :: t.
Proof.
  intros Hb Hl. rewrite (main_validated w a Hb Hl).
  destruct (load_starts w a) as [t Ht].
  destruct (load w a) as [t1 r]. cbn [fst] in Ht. subst t1.
  destruct r as [loaded | e]; run_py; eexists; reflexivity.
Qed.

Lemma mod_in_axis (n : nat) (i : Z) :
  in_axis n i -> in_axis n (i mod Z.of_nat n).
Proof.
  unfold in_axis. intros H.
  pose proof (Z.mod_pos_bound i (Z.of_nat n) ltac:(lia)). lia.
Qed.

(** C10, as the code has it. A negative band or level index (the other
    index below its bound) is not a usage error: the run opens the input
    file. On a file of one of the two sizes, indices no lower than -13 for
    the band and -4 for the level draw exactly what the indices counted
    from the start of the axis draw, and the run exits with status 0 when
    the figure is written or refused for lack of permission; a lower
    index raises [IndexError] in the plotter and nothing is drawn. *)
Theorem negative_indices (w : world) (a : args) :
  band a < 0 \/ level a < 0 ->
  band a < 13 -> level a < 4 ->
  (exists t, fst (main w a) = info_line a ++ EOpen (FILE a) :: t) /\
  (forall fdata : list F32.t,
     w_open w (FILE a) = inr fdata ->
     size fdata = 13 * Z.of_nat (length rtoa) * 27 * 4 \/
     size fdata = 13 * Z.of_nat (length rtoa) * 25 * 4 ->
     (-13 <= band a -> -4 <= level a ->
        drawn (fst (main w a)) = drawn (fst (main w (wrapped a))) /\
        drawn (fst (main w a)) <> [] /\
        (w_savefig w (fname a) = None \/
         w_savefig w (fname a) = Some PermissionError ->
         snd (main w a) = Raise (SystemExit 0))) /\
     (band a < -13 \/ level a < -4 ->
        snd (main w a) = Raise IndexError /\ drawn (fst (main w a)) = [])).
Proof.
  intros _ Hb13 Hl4. split; [apply main_opens; lia | ].
  intros fdata Hopen Hsize. split.
  - intros Hb Hl.
    assert (Ab : in_axis 13 (band a)) by (unfold in_axis; cbn; lia).
    assert (Al : in_axis 4 (level a)) by (unfold in_axis; cbn; lia).
    destruct (main_completes w a fdata Hopen Hsize Ab Al)
      as (t1 & tau & minilut & ftau & wl & al & t2 & Hload & Hd1 & Hs & Hdraw & Hmain).
    destruct (main_completes w (wrapped a) fdata Hopen Hsize
                (mod_in_axis 13 _ Ab) (mod_in_axis 4 _ Al))
      as (t1' & tau' & minilut' & ftau' & wl' & al' & t2' & Hload' & _ & _ & Hdraw' & Hmain').
    change (load w (wrapped a)) with (load w a) in Hload'.
    rewrite Hload in Hload'. injection Hload' as <- <- <- <-.
    cbn [wrapped band level all] in Hdraw'.
    rewrite (draw_mod _ _ _ _ _ _ _ _ _ Hs Ab Al), Hdraw in Hdraw'.
    injection Hdraw' as <- <- <-.
    rewrite Hmain, Hmain'. cbn [fst snd].
    rewrite !drawn_app, !drawn_info_line, Hd1.
    change (drawn (ESavefig ?f :: ?t)) with (drawn t).
    rewrite !drawn_after_savefig.
    split; [reflexivity | split].
    + cbn. discriminate.
    + apply after_savefig_exit.
  - intros Hout.
    destruct (load_returns w a fdata Hopen Hsize)
      as (t1 & tau & minilut & ftau & ts & Hload & Hd1 & _).
    assert (Hna : ~ (in_axis 13 (band a) /\ in_axis 4 (level a)))
      by (unfold in_axis; cbn; lia).
    assert (Hb : band a <= 13) by lia.
    assert (Hl : level a <= 4) by lia.
    rewrite (main_not_drawn w a _ _ _ _ _ _ Hb Hl Hload
               (draw_index_error rtoa tau minilut _ _ ftau (all a) Hna)).
    split; [reflexivity | ]. cbn [fst].
    rewrite !drawn_app, drawn_info_line, Hd1. reflexivity.
Qed.

Lemma negative_indices_witness :
  (exists t,
     fst (main (world_with extended_buffer) (cli "sample.minilut" (-1) 0)) =
     [] ++ EOpen "sample.minilut" :: t) /\
  drawn (fst (main (world_with extended_buffer) (cli "sample.minilut" (-1) 0))) =
  drawn (fst (main (world_with extended_buffer) (cli "sample.minilut" 12 0))) /\
  drawn (fst (main (world_with extended_buffer) (cli "sample.minilut" (-1) 0))) <> [] /\
  snd (main (world_with extended_buffer) (cli "sample.minilut" (-1) 0)) =
  Raise (SystemExit 0) /\
  snd (main (world_with extended_buffer) (cli "sample.minilut" 0 (-5))) =
  Raise IndexError /\
  drawn (fst (main (world_with extended_buffer) (cli "sample.minilut" 0 (-5)))) = [].
Proof.
  destruct (negative_indices (world_with extended_buffer)
              (cli "sample.minilut" (-1) 0)) as (H1 & H2);
    [left; reflexivity | reflexivity | reflexivity | ].
  destruct (negative_indices (world_with extended_buffer)
              (cli "sample.minilut" 0 (-5))) as (_ & H2');
    [right; reflexivity | reflexivity | reflexivity | ].
  split; [exact H1 | ].
  destruct (H2 extended_buffer) as ((H3 & H4 & H5) & _);
    [reflexivity | left; vm_compute; reflexivity | cbn; lia | cbn; lia | ].
  split; [exact H3 | split; [exact H4 | split]].
  - apply H5. left. reflexivity.
  - apply (H2' extended_buffer);
      [reflexivity | left; vm_compute; reflexivity | right; cbn; lia].
Defined.

(** C10 fails on the code for indices below the axis: band index -14 passes
    the validation and the file is read, but the plotter raises
    [IndexError] before drawing anything. *)
Lemma negative_indices_counterexample :
  main (world_with extended_buffer) (cli "sample.minilut" (-14) 0) =
  ([EOpen "sample.minilut"; ESubplots], Raise IndexError).
Proof. vm_compute. reflexivity. Qed.

(** * More on the monotonicity check *)

Lemma SFltb_finite_iff (s1 s2 : bool) (m1 m2 : positive) (e1 e2 : Z) :
  SFltb (S754_finite s1 m1 e1) (S754_finite s2 m2 e2) = true <->
  match s1, s2 with
  | true, false => True
  | false, true => False
  | false, false => lex_lt e1 m1 e2 m2
  | true, true => lex_lt e2 m2 e1 m1
  end.
Proof.
  unfold SFltb, SFcompare, lex_lt.
  change (Pos.compare_cont Eq m1 m2) with (Pos.compare m1 m2).
  destruct s1, s2; try (split; [trivial | reflexivity]);
    try (split; [discriminate | contradiction]);
    destruct (Z.compare_spec e1 e2) as [E | E | E];
    destruct (Pos.compare_spec m1 m2) as [P | P | P]; cbn [CompOpp];
    split; intros H; try reflexivity; try discriminate; lia.
Qed.

(** [SFcompare]'s strict order is transitive on all numbers. *)
Lemma SFltb_trans (x y z : spec_float) :
  SFltb x y = true -> SFltb y z = true -> SFltb x z = true.
Proof.
  destruct x as [sx | sx | | sx mx ex], y as [sy | sy | | sy my ey],
    z as [sz | sz | | sz mz ez];
    try (intros; discriminate);
    try (destruct sx; try (destruct sy); try (destruct sz);
         cbn; intros; (reflexivity || discriminate)).
  rewrite !SFltb_finite_iff. unfold lex_lt.
  destruct sx, sy, sz; intros H1 H2; try contradiction; try exact I; lia.
Qed.

Lemma increasing_head (x : F32.t) (r : list F32.t) :
  increasing (x :: r) = true ->
  Forall (fun y => F32.ltb x y = true) r.
Proof.
  revert x. induction r as [ | y r IH]; intros x H; [constructor | ].
  cbn [increasing] in H. apply andb_true_iff in H as [Hxy Hr].
  constructor; [exact Hxy | ].
  apply (Forall_impl _ (fun z Hz => SFltb_trans x y z Hxy Hz)). exact (IH y Hr).
Qed.

Lemma increasing_tail (x : F32.t) (r : list F32.t) :
  increasing (x :: r) = true -> increasing r = true.
Proof.
  destruct r as [ | y r]; [reflexivity | ].
  cbn [increasing]. intros H. now apply andb_true_iff in H as [_ H].
Qed.

Lemma increasing_pairs (a : list F32.t) :
  increasing a = true ->
  forall i j : nat, (i < j < length a)%nat ->
    F32.ltb (nth i a F32.zero) (nth j a F32.zero) = true.
Proof.
  induction a as [ | x r IH]; intros H i j Hij; [cbn in Hij; lia | ].
  destruct j as [ | j]; [lia | ]. destruct i as [ | i].
  - cbn [nth]. pose proof (increasing_head x r H) as Hall.
    rewrite Forall_forall in Hall. apply Hall. apply nth_In.
    cbn [length] in Hij. lia.
  - cbn [nth]. apply IH; [exact (increasing_tail x r H) | cbn [length] in Hij; lia].
Qed.

(** The check is global: a curve that passes increases between any two of
    its points, so no ordinate is taken twice. *)
Theorem monotony_pairwise (a : list F32.t) :
  forallb F32.valid a = true ->
  monotony a = true ->
  (forall i j : nat, (i < j < length a)%nat ->
     F32.ltb (nth i a F32.zero) (nth j a F32.zero) = true) /\
  NoDup a.
Proof.
  intros V H. rewrite monotony_increasing in H by exact V.
  pose proof (increasing_pairs a H) as Hp. split; [exact Hp | ].
  clear V. induction a as [ | x r IH]; [constructor | ].
  constructor.
  - intros Hin. pose proof (increasing_head x r H) as Hall.
    rewrite Forall_forall in Hall. specialize (Hall x Hin).
    unfold F32.ltb in Hall. rewrite SFltb_irrefl in Hall. discriminate.
  - apply IH; [exact (increasing_tail x r H) | ].
    intros i j Hij. apply (Hp (S i) (S j)). cbn [length]. lia.
Qed.

Lemma monotony_pairwise_witness :
  (forall i j : nat,
     (i < j < length [F32.of_Z 1; F32.of_Z 2; F32.of_Z 3])%nat ->
     F32.ltb (nth i [F32.of_Z 1; F32.of_Z 2; F32.of_Z 3] F32.zero)
             (nth j [F32.of_Z 1; F32.of_Z 2; F32.of_Z 3] F32.zero) = true) /\
  NoDup [F32.of_Z 1; F32.of_Z 2; F32.of_Z 3].
Proof.
  apply (monotony_pairwise [F32.of_Z 1; F32.of_Z 2; F32.of_Z 3]); reflexivity.
Defined.

Lemma SFsub_nan_l (prec emax : Z) (x : spec_float) :
  SFsub prec emax S754_nan x = S754_nan.
Proof. reflexivity. Qed.

Lemma SFsub_nan_r (prec emax : Z) (x : spec_float) :
  SFsub prec emax x S754_nan = S754_nan.
Proof. destruct x; reflexivity. Qed.

(** A NaN anywhere in a curve of at least two points makes the check fail:
    both differences it enters are NaN, and NaN is not greater than 0. *)
Theorem monotony_nan (a : list F32.t) :
  In S754_nan a -> (2 <= length a)%nat -> monotony a = false.
Proof.
  induction a as [ | x [ | y r] IH]; intros Hin Hlen;
    [destruct Hin | cbn in Hlen; lia | ].
  rewrite monotony_cons.
  destruct Hin as [-> | [-> | Hin]].
  - unfold F32.sub. rewrite SFsub_nan_r. reflexivity.
  - unfold F32.sub. rewrite SFsub_nan_l. reflexivity.
  - destruct r as [ | z r]; [destruct Hin | ].
    rewrite IH; [apply andb_false_r | right; exact Hin | cbn [length]; lia].
Qed.

Lemma monotony_nan_witness : monotony [F32.of_Z 1; S754_nan; F32.of_Z 3] = false.
Proof.
  apply (monotony_nan [F32.of_Z 1; S754_nan; F32.of_Z 3]).
  - right. left. reflexivity.
  - cbn. lia.
Defined.

(** * Files that cannot be read *)

Lemma load_open_raises (w : world) (a : args) (e : exn) :
  w_open w (FILE a) = inl e ->
  load w a =
  match e with
  | ValueError => ([EOpen (FILE a); EPrint fallback_warning], Raise UnboundLocalError)
  | FileNotFoundError =>
      ([EOpen (FILE a); EPrint ("ERROR: file " ++ FILE a ++ " not found...")%string],
       Raise (SystemExit 1))
  | _ =>
      ([EOpen (FILE a);
        EPrint ("ERROR: Unexpected error: <class '" ++ exn_name e ++ "'>")%string],
       Raise e)
  end.
Proof.
  intros Hopen. unfold load, open_fromfile. rewrite Hopen.
  destruct e; reflexivity.
Qed.

(** A missing input file: the run prints the error naming the file and
    exits with status 1; nothing is drawn or saved. *)
Theorem file_not_found (w : world) (a : args) :
  band a <= 13 -> level a <= 4 ->
  w_open w (FILE a) = inl FileNotFoundError ->
  main w a =
  (info_line a ++
     [EOpen (FILE a); EPrint ("ERROR: file " ++ FILE a ++ " not found...")%string],
   Raise (SystemExit 1)) /\
  exit_status (snd (main w a)) = 1.
Proof.
  intros Hb Hl Hopen.
  rewrite (main_not_loaded w a _ _ Hb Hl (load_open_raises w a _ Hopen)).
  split; reflexivity.
Qed.

Lemma file_not_found_witness :
  main {| w_open := fun _ => inl FileNotFoundError; w_savefig := fun _ => None |}
       (cli "sample.minilut" 0 0) =
  ([] ++ [EOpen "sample.minilut"; EPrint "ERROR: file sample.minilut not found..."],
   Raise (SystemExit 1)) /\
  exit_status
    (snd (main {| w_open := fun _ => inl FileNotFoundError;
                  w_savefig := fun _ => None |}
               (cli "sample.minilut" 0 0))) = 1.
Proof.
  apply (file_not_found
           {| w_open := fun _ => inl FileNotFoundError; w_savefig := fun _ => None |}
           (cli "sample.minilut" 0 0)); [cbn; lia | cbn; lia | reflexivity].
Defined.

(** Any other exception raised while opening or reading (all but
    [ValueError] and [FileNotFoundError]): the run prints the unexpected
    error with the class of the exception and raises it again. The
    [sys.exit(1)] that follows the [raise] is never reached: the run ends
    with the exception itself, not with [SystemExit]. *)
Theorem unexpected_error_reraised (w : world) (a : args) (e : exn) :
  band a <= 13 -> level a <= 4 ->
  w_open w (FILE a) = inl e ->
  e <> ValueError -> e <> FileNotFoundError ->
  main w a =
  (info_line a ++
     [EOpen (FILE a);
      EPrint ("ERROR: Unexpected error: <class '" ++ exn_name e ++ "'>")%string],
   Raise e).
Proof.
  intros Hb Hl Hopen H1 H2.
  pose proof (load_open_raises w a e Hopen) as Hload.
  destruct e; try contradiction;
    apply (main_not_loaded w a _ _ Hb Hl Hload).
Qed.

Lemma unexpected_error_reraised_witness :
  main {| w_open := fun _ => inl PermissionError; w_savefig := fun _ => None |}
       (cli "sample.minilut" 0 0) =
  ([] ++ [EOpen "sample.minilut";
          EPrint "ERROR: Unexpected error: <class 'PermissionError'>"],
   Raise PermissionError).
Proof.
  apply (unexpected_error_reraised
           {| w_open := fun _ => inl PermissionError; w_savefig := fun _ => None |}
           (cli "sample.minilut" 0 0) PermissionError);
    [cbn; lia | cbn; lia | reflexivity | discriminate | discriminate].
Defined.

(** A [ValueError] raised before the buffer is read (by [open] itself) is
    taken for a shape mismatch: the fallback warning is printed, and the
    handler then fails on the unbound [fdata]. *)
Theorem value_error_before_read (w : world) (a : args) :
  band a <= 13 -> level a <= 4 ->
  w_open w (FILE a) = inl ValueError ->
  main w a =
  (info_line a ++ [EOpen (FILE a); EPrint fallback_warning],
   Raise UnboundLocalError).
Proof.
  intros Hb Hl Hopen.
  apply (main_not_loaded w a _ _ Hb Hl (load_open_raises w a _ Hopen)).
Qed.

Lemma value_error_before_read_witness :
  main {| w_open := fun _ => inl ValueError; w_savefig := fun _ => None |}
       (cli "sample.minilut" 0 0) =
  ([] ++ [EOpen "sample.minilut"; EPrint fallback_warning],
   Raise UnboundLocalError).
Proof.
  apply (value_error_before_read
           {| w_open := fun _ => inl ValueError; w_savefig := fun _ => None |}
           (cli "sample.minilut" 0 0)); [cbn; lia | cbn; lia | reflexivity].
Defined.

(** * What [load] returns *)

Lemma reshape_inv (fdata : list F32.t) (d0 d1 d2 d3 : nat) (minilut : ndarray4) :
  reshape fdata d0 d1 d2 d3 = Some minilut ->
  minilut = {| nd_data := fdata; nd_shape := (d0, d1, d2, d3) |} /\
  length fdata = (d0 * d1 * d2 * d3)%nat.
Proof.
  unfold reshape.
  destruct (Nat.eqb_spec (length fdata) (d0 * d1 * d2 * d3)) as [E | _];
    [ | discriminate].
  intros [= <-]. split; [reflexivity | exact E].
Qed.

Lemma loaded_inv {A B C : Type} (t t' : list event) (x x' : A) (y y' : B) (z z' : C) :
  (t, Ok (x, y, z)) = (t', Ok (x', y', z')) ->
  t = t' /\ x = x' /\ y = y' /\ z = z'.
Proof. intros H. injection H as -> -> -> ->. repeat split. Qed.

Lemma load_ok_data (w : world) (a : args) t tau minilut ftau :
  load w a = (t, Ok (tau, minilut, ftau)) ->
  exists fdata,
    w_open w (FILE a) = inr fdata /\
    nd_data minilut = fdata /\
    nd_shape minilut = (13, length rtoa, length tau, 4)%nat /\
    length fdata = (13 * length rtoa * length tau * 4)%nat.
Proof.
  intros Hload.
  destruct (w_open w (FILE a)) as [e | fdata] eqn:Hopen.
  { rewrite (load_open_raises w a e Hopen) in Hload. destruct e; discriminate. }
  exists fdata. split; [reflexivity | ].
  rewrite (load_cases w a fdata Hopen) in Hload.
  destruct (reshape fdata 13 (length rtoa) 27 4) as [m30 | ] eqn:R30.
  - apply reshape_inv in R30 as [-> Hlen].
    apply loaded_inv in Hload as (_ & <- & <- & _).
    rewrite length_tau30. repeat split. exact Hlen.
  - destruct (reshape fdata 13 (length rtoa) 25 4) as [m15 | ] eqn:R15;
      [ | discriminate].
    apply reshape_inv in R15 as [-> Hlen].
    apply loaded_inv in Hload as (_ & <- & <- & _).
    rewrite length_tau15. repeat split. exact Hlen.
Qed.

(** Whenever [load] returns, the array is the whole buffer of the file, its
    size is the product of its shape, and the flag, the AOT axis and the
    shape agree: either ["LUT30"] with the 27 values and shape
    [(13, len(rtoa), 27, 4)], or, after the warning, ["LUT15"] with the 25
    values and shape [(13, len(rtoa), 25, 4)]. *)
Theorem load_consistent (w : world) (a : args) t tau minilut ftau :
  load w a = (t, Ok (tau, minilut, ftau)) ->
  exists fdata,
    w_open w (FILE a) = inr fdata /\
    nd_data minilut = fdata /\
    nd_shape minilut = (13, length rtoa, length tau, 4)%nat /\
    size fdata = 13 * Z.of_nat (length rtoa) * Z.of_nat (length tau) * 4 /\
    ((ftau = "LUT30"%string /\ tau = tau30 /\ ~ In (EPrint fallback_warning) t) \/
     (ftau = "LUT15"%string /\ tau = tau15 /\ In (EPrint fallback_warning) t)).
Proof.
  intros Hload.
  destruct (w_open w (FILE a)) as [e | fdata] eqn:Hopen.
  { rewrite (load_open_raises w a e Hopen) in Hload. destruct e; discriminate. }
  exists fdata. split; [reflexivity | ].
  rewrite (load_cases w a fdata Hopen) in Hload.
  destruct (reshape fdata 13 (length rtoa) 27 4) as [m30 | ] eqn:R30.
  - apply reshape_inv in R30 as [-> Hlen].
    apply loaded_inv in Hload as (<- & <- & <- & <-).
    rewrite length_tau30. unfold size.
    repeat split; [lia | ]. left. repeat split.
    destruct (verbose a); cbn [In]; intuition discriminate.
  - destruct (reshape fdata 13 (length rtoa) 25 4) as [m15 | ] eqn:R15;
      [ | discriminate].
    apply reshape_inv in R15 as [-> Hlen].
    apply loaded_inv in Hload as (<- & <- & <- & <-).
    rewrite length_tau15. unfold size.
    repeat split; [lia | ]. right. repeat split. cbn [In]. tauto.
Qed.

Lemma load_consistent_witness :
  exists fdata,
    w_open (world_with legacy_buffer) (FILE (cli "sample.minilut" 0 0)) = inr fdata /\
    nd_data {| nd_data := legacy_buffer;
               nd_shape := (13, length rtoa, 25, 4)%nat |} = fdata /\
    nd_shape {| nd_data := legacy_buffer;
                nd_shape := (13, length rtoa, 25, 4)%nat |} =
    (13, length rtoa, length tau15, 4)%nat /\
    size fdata = 13 * Z.of_nat (length rtoa) * Z.of_nat (length tau15) * 4 /\
    (("LUT15"%string = "LUT30"%string /\ tau15 = tau30 /\
      ~ In (EPrint fallback_warning) [EOpen "sample.minilut"; EPrint fallback_warning]) \/
     ("LUT15"%string = "LUT15"%string /\ tau15 = tau15 /\
      In (EPrint fallback_warning) [EOpen "sample.minilut"; EPrint fallback_warning])).
Proof.
  apply (load_consistent (world_with legacy_buffer) (cli "sample.minilut" 0 0)
           [EOpen "sample.minilut"; EPrint fallback_warning] tau15
           {| nd_data := legacy_buffer; nd_shape := (13, length rtoa, 25, 4)%nat |}
           "LUT15").
  apply load_legacy; [reflexivity | vm_compute; reflexivity].
Defined.

(** * The upper bounds of the validation *)

(** Band index 13 and level index 4 pass the validation ([>] where the
    axes need [>=]): on a file of one of the two sizes the run reads the
    file, enters the plotter and stops on the [IndexError] of the title
    line, with exit status 1 and nothing drawn or saved. *)
Theorem index_at_bound (w : world) (a : args) (fdata : list F32.t) :
  w_open w (FILE a) = inr fdata ->
  size fdata = 13 * Z.of_nat (length rtoa) * 27 * 4 \/
  size fdata = 13 * Z.of_nat (length rtoa) * 25 * 4 ->
  (band a = 13 /\ level a <= 4) \/ (level a = 4 /\ band a <= 13) ->
  main w a = (info_line a ++ fst (load w a) ++ [ESubplots], Raise IndexError) /\
  exit_status (snd (main w a)) = 1 /\
  drawn (fst (main w a)) = [] /\
  (forall f, ~ In (ESavefig f) (fst (main w a))).
Proof.
  intros Hopen Hsize Hidx.
  destruct (load_returns w a fdata Hopen Hsize)
    as (t1 & tau & minilut & ftau & ts & Hload & Hd1 & _).
  assert (Hna : ~ (in_axis 13 (band a) /\ in_axis 4 (level a)))
    by (unfold in_axis; cbn; lia).
  assert (Hb : band a <= 13) by lia.
  assert (Hl : level a <= 4) by lia.
  assert (E : main w a = (info_line a ++ fst (load w a) ++ [ESubplots], Raise IndexError)).
  { rewrite Hload. cbn [fst].
    apply (main_not_drawn w a _ _ _ _ _ _ Hb Hl Hload
             (draw_index_error rtoa tau minilut _ _ ftau (all a) Hna)). }
  split; [exact E | ]. rewrite E, Hload. cbn [fst snd].
  split; [reflexivity | split].
  - rewrite !drawn_app, drawn_info_line, Hd1. reflexivity.
  - intros f Hin.
    apply in_app_or in Hin as [Hin | Hin]; [exact (quiet_info_line a f Hin) | ].
    apply in_app_or in Hin as [Hin | [Hin | []]]; [ | discriminate].
    pose proof (quiet_load w a f) as Q. rewrite Hload in Q. exact (Q Hin).
Qed.

Lemma index_at_bound_witness :
  main (world_with extended_buffer) (cli "sample.minilut" 0 4) =
  (info_line (cli "sample.minilut" 0 4)
     ++ fst (load (world_with extended_buffer) (cli "sample.minilut" 0 4))
     ++ [ESubplots],
   Raise IndexError) /\
  exit_status (snd (main (world_with extended_buffer) (cli "sample.minilut" 0 4))) = 1 /\
  drawn (fst (main (world_with extended_buffer) (cli "sample.minilut" 0 4))) = [] /\
  (forall f,
     ~ In (ESavefig f)
          (fst (main (world_with extended_buffer) (cli "sample.minilut" 0 4)))).
Proof.
  apply (index_at_bound (world_with extended_buffer) (cli "sample.minilut" 0 4)
           extended_buffer).
  - reflexivity.
  - left. vm_compute. reflexivity.
  - right. cbn. lia.
Defined.

(** * After the call to [savefig] *)

(** An exception of [savefig] other than [PermissionError] is not caught:
    the run ends with it right after the call, without the interactive
    display and without the completion message. *)
Theorem savefig_other_error (w : world) (a : args) (f : string) (e : exn) :
  In (ESavefig f) (fst (main w a)) ->
  w_savefig w f = Some e ->
  e <> PermissionError ->
  snd (main w a) = Raise e /\
  exists t, fst (main w a) = t ++ [ESavefig f].
Proof.
  intros Hin Hsave Hne.
  destruct (main_savefig_inv w a f Hin) as (-> & t & E).
  rewrite E. unfold after_savefig. rewrite Hsave.
  destruct e; try contradiction; cbn [fst snd]; (split; [reflexivity | now exists t]).
Qed.

Lemma savefig_other_error_witness :
  snd (main {| w_open := fun _ => inr extended_buffer;
               w_savefig := fun _ => Some FileNotFoundError |}
            (cli "sample.minilut" 1 0)) = Raise FileNotFoundError /\
  exists t,
    fst (main {| w_open := fun _ => inr extended_buffer;
                 w_savefig := fun _ => Some FileNotFoundError |}
              (cli "sample.minilut" 1 0)) =
    t ++ [ESavefig "sample.min_B2_L0.png"].
Proof.
  apply (savefig_other_error
           {| w_open := fun _ => inr extended_buffer;
              w_savefig := fun _ => Some FileNotFoundError |}
           (cli "sample.minilut" 1 0) "sample.min_B2_L0.png" FileNotFoundError).
  - vm_compute. do 11 right. left. reflexivity.
  - reflexivity.
  - discriminate.
Defined.

(** When [savefig] succeeds, the run exits with status 0; what follows the
    call is the interactive display, exactly when [--verbose] was given,
    and then the completion message. *)
Theorem savefig_succeeds (w : world) (a : args) (f : string) :
  In (ESavefig f) (fst (main w a)) ->
  w_savefig w f = None ->
  snd (main w a) = Raise (SystemExit 0) /\
  exists t,
    fst (main w a) =
    t ++ ESavefig f :: (if verbose a then [EShow] else []) ++ [EPrint done_line].
Proof.
  intros Hin Hsave.
  destruct (main_savefig_inv w a f Hin) as (-> & t & E).
  rewrite E. unfold after_savefig. rewrite Hsave. cbn [fst snd].
  split; [reflexivity | now exists t].
Qed.

Lemma savefig_succeeds_witness :
  snd (main (world_with extended_buffer)
            {| FILE := "sample.minilut"; verbose := true; band := 1; level := 0;
               all := false |}) = Raise (SystemExit 0) /\
  exists t,
    fst (main (world_with extended_buffer)
              {| FILE := "sample.minilut"; verbose := true; band := 1; level := 0;
                 all := false |}) =
    t ++ ESavefig "sample.min_B2_L0.png" :: [EShow] ++ [EPrint done_line].
Proof.
  apply (savefig_succeeds (world_with extended_buffer)
           {| FILE := "sample.minilut"; verbose := true; band := 1; level := 0;
              all := false |} "sample.min_B2_L0.png").
  - vm_compute. do 13 right. left. reflexivity.
  - reflexivity.
Defined.

(** * The loop on AOT *)

Lemma plot_aot_trace rtoa0 tau minilut (d0 d2 d3 : nat) band level t :
  nd_shape minilut = (d0, length rtoa0, d2, d3) ->
  in_axis d0 band -> in_axis d3 level ->
  in_axis d2 t -> in_axis (length tau) t ->
  plot_aot rtoa0 tau minilut band level t =
  (plot_trace tau minilut band level t, Ok tt).
Proof.
  intros Hs Hb Hl Ht Htau.
  destruct (slice_in _ _ _ _ _ _ _ _ Hs Hb Ht Hl) as (curve & Hc & Hlen).
  destruct (py_index_in tau t Htau) as (aot & Ha).
  rewrite (plot_aot_ok _ _ _ _ _ _ _ _ Hc Ha (eq_sym Hlen)).
  unfold plot_trace, aot_label, curve_of, aot_of. now rewrite Hc, Ha.
Qed.

Lemma for_each_plot_trace rtoa0 tau minilut (d0 d3 : nat) band level ts :
  nd_shape minilut = (d0, length rtoa0, length tau, d3) ->
  in_axis d0 band -> in_axis d3 level ->
  Forall (in_axis (length tau)) ts ->
  for_each ts (plot_aot rtoa0 tau minilut band level) =
  (flat_map (plot_trace tau minilut band level) ts, Ok tt).
Proof.
  intros Hs Hb Hl. induction 1 as [ | t ts Ht _ IH]; [reflexivity | ].
  cbn [for_each flat_map].
  rewrite (plot_aot_trace _ _ _ _ _ _ _ _ _ Hs Hb Hl Ht Ht), IH. reflexivity.
Qed.

Lemma draw_trace rtoa0 tau minilut band level dims showall ts :
  nd_shape minilut = (13, length rtoa0, length tau, 4)%nat ->
  rtoa0 <> [] ->
  in_axis 13 band -> in_axis 4 level ->
  tau_sampling dims showall tau = Some ts ->
  Forall (in_axis (length tau)) ts ->
  exists wavelength altitude,
    py_index vband band = Some wavelength /\
    py_index alt level = Some altitude /\
    draw rtoa0 tau minilut alt vband band level dims showall =
    (ESubplots :: ETitle wavelength altitude :: EIdentity ::
       flat_map (plot_trace tau minilut band level) ts ++ [ELegend],
     Ok tt).
Proof.
  intros Hs Hne Hb Hl Hts Hin.
  destruct (py_index_in vband band Hb) as (wavelength & Hw).
  destruct (py_index_in alt level Hl) as (altitude & Ha).
  exists wavelength, altitude. split; [exact Hw | split; [exact Ha | ]].
  unfold draw. rewrite Hw, Ha, Hts.
  destruct rtoa0 as [ | x0 r0]; [contradiction | ].
  run_py. rewrite (for_each_plot_trace _ _ _ _ _ _ _ _ Hs Hb Hl Hin).
  reflexivity.
Qed.

Lemma drawn_plot_traces tau minilut band level ts :
  drawn (flat_map (plot_trace tau minilut band level) ts) =
  map (fun t => EPlot (aot_label tau t) (curve_of minilut band level t)) ts.
Proof.
  induction ts as [ | t ts IH]; [reflexivity | ].
  cbn [flat_map map]. rewrite drawn_app, IH. unfold plot_trace.
  destruct (monotony (curve_of minilut band level t)); reflexivity.
Qed.

Lemma warnings_plot_traces tau minilut band level ts :
  nonmonotone_warnings (flat_map (plot_trace tau minilut band level) ts) =
  map (fun t => EPrint (nonmonotone_warning (aot_of tau t)))
      (filter (fun t => negb (monotony (curve_of minilut band level t))) ts).
Proof.
  induction ts as [ | t ts IH]; [reflexivity | ].
  cbn [flat_map filter]. rewrite nonmonotone_warnings_app, IH. unfold plot_trace.
  destruct (monotony (curve_of minilut band level t)); reflexivity.
Qed.

Lemma miniplot_after_draw w rtoa0 tau minilut filename band level dims verbose showall td :
  draw rtoa0 tau minilut alt vband band level dims showall = (td, Ok tt) ->
  exists rest,
    fst (miniplot w rtoa0 tau minilut alt vband filename band level dims
           verbose showall) = td ++ ESavefig filename :: rest /\
    drawn rest = [] /\ nonmonotone_warnings rest = [].
Proof.
  intros Hdraw. unfold miniplot, savefig. rewrite Hdraw.
  destruct (w_savefig w filename) as [[] | ]; destruct verbose; run_py;
    eexists; (split; [reflexivity | split; reflexivity]).
Qed.

(** A curve that fails the check never interrupts the plot. With indices
    inside their axes, [miniplot] draws the title and then one curve per
    sampled AOT index, in the order of the sampling, each labelled with its
    AOT value; the non-monotone warnings it prints are exactly those of the
    sampled indices whose curve fails the check, in the same order. *)
Theorem curves_and_warnings
    (w : world) rtoa0 tau minilut filename band level dims verbose showall ts :
  nd_shape minilut = (13, length rtoa0, length tau, 4)%nat ->
  rtoa0 <> [] ->
  in_axis 13 band -> in_axis 4 level ->
  tau_sampling dims showall tau = Some ts ->
  Forall (in_axis (length tau)) ts ->
  exists wavelength altitude,
    py_index vband band = Some wavelength /\
    py_index alt level = Some altitude /\
    drawn (fst (miniplot w rtoa0 tau minilut alt vband filename band level dims
                  verbose showall)) =
    ETitle wavelength altitude ::
      map (fun t => EPlot (aot_label tau t) (curve_of minilut band level t)) ts /\
    nonmonotone_warnings
      (fst (miniplot w rtoa0 tau minilut alt vband filename band level dims
              verbose showall)) =
    map (fun t => EPrint (nonmonotone_warning (aot_of tau t)))
        (filter (fun t => negb (monotony (curve_of minilut band level t))) ts).
Proof.
  intros Hs Hne Hb Hl Hts Hin.
  destruct (draw_trace rtoa0 tau minilut band level dims showall ts
              Hs Hne Hb Hl Hts Hin) as (wavelength & altitude & Hw & Ha & Hdraw).
  exists wavelength, altitude. split; [exact Hw | split; [exact Ha | ]].
  destruct (miniplot_after_draw w _ _ _ filename _ _ _ verbose _ _ Hdraw)
    as (rest & -> & Hd & Hn).
  split.
  - rewrite drawn_app.
    change (drawn (ESavefig filename :: rest)) with (drawn rest). rewrite Hd, app_nil_r.
    change (drawn (ESubplots :: ETitle wavelength altitude :: EIdentity :: ?t))
      with (ETitle wavelength altitude :: drawn t).
    rewrite drawn_app, drawn_plot_traces. cbn [drawn filter]. now rewrite app_nil_r.
  - rewrite nonmonotone_warnings_app.
    change (nonmonotone_warnings (ESavefig filename :: rest))
      with (nonmonotone_warnings rest). rewrite Hn, app_nil_r.
    change (nonmonotone_warnings
              (ESubplots :: ETitle wavelength altitude :: EIdentity :: ?t))
      with (nonmonotone_warnings t).
    rewrite nonmonotone_warnings_app, warnings_plot_traces.
    cbn [nonmonotone_warnings filter is_nonmonotone_warning]. now rewrite app_nil_r.
Qed.

Lemma curves_and_warnings_witness :
  exists wavelength altitude,
    py_index vband 0 = Some wavelength /\
    py_index alt 0 = Some altitude /\
    drawn (fst (miniplot (world_with []) rtoa tau30 flat8_lut alt vband "out.png"
                  0 0 "LUT30" false false)) =
    ETitle wavelength altitude ::
      map (fun t => EPlot (aot_label tau30 t) (curve_of flat8_lut 0 0 t))
          [0; 8; 16; 24; 25; 26] /\
    nonmonotone_warnings
      (fst (miniplot (world_with []) rtoa tau30 flat8_lut alt vband "out.png"
              0 0 "LUT30" false false)) =
    map (fun t => EPrint (nonmonotone_warning (aot_of tau30 t)))
        (filter (fun t => negb (monotony (curve_of flat8_lut 0 0 t)))
                [0; 8; 16; 24; 25; 26]).
Proof.
  apply (curves_and_warnings (world_with []) rtoa tau30 flat8_lut "out.png" 0 0
           "LUT30" false false [0; 8; 16; 24; 25; 26]).
  - vm_compute. reflexivity.
  - vm_compute. discriminate.
  - unfold in_axis. cbn. lia.
  - unfold in_axis. cbn. lia.
  - reflexivity.
  - vm_compute. repeat constructor; discriminate.
Defined.

(** * Which events a run can contain *)

Lemma trace_all_bind {A B : Type} (P : event -> Prop) (m : M A) (k : A -> M B) :
  trace_all P m -> (forall a, snd m = Ok a -> trace_all P (k a)) ->
  trace_all P (bind m k).
Proof.
  unfold trace_all, bind. intros Hm Hk.
  destruct (snd m) as [a | e]; cbn [fst]; [ | exact Hm].
  apply Forall_app. split; [exact Hm | exact (Hk a eq_refl)].
Qed.

Lemma trace_all_emit (P : event -> Prop) (ev : event) :
  P ev -> trace_all P (emit ev).
Proof. intros H. repeat constructor. exact H. Qed.

Lemma trace_all_nil {A : Type} (P : event -> Prop) (r : result A) :
  trace_all P (@nil event, r).
Proof. constructor. Qed.

Lemma trace_all_lift {A : Type} (P : event -> Prop) (o : option A) (e : exn) :
  trace_all P (lift o e).
Proof. destruct o; constructor. Qed.

Lemma lift_ok {A : Type} (o : option A) (e : exn) (a : A) :
  snd (lift o e) = Ok a -> o = Some a.
Proof. destruct o; cbn; [intros [= ->]; reflexivity | discriminate]. Qed.

Lemma trace_all_for_each {A : Type} (P : event -> Prop) (l : list A)
    (body : A -> M unit) :
  (forall x, trace_all P (body x)) -> trace_all P (for_each l body).
Proof.
  intros H. induction l as [ | x r IH]; cbn [for_each]; [constructor | ].
  apply trace_all_bind; [apply H | intros _ _; exact IH].
Qed.

Lemma trace_all_plot_aot rtoa0 tau minilut band level t :
  trace_all (drawing_event minilut band level)
            (plot_aot rtoa0 tau minilut band level t).
Proof.
  unfold plot_aot.
  apply trace_all_bind; [apply trace_all_lift | intros curve Hc].
  apply lift_ok in Hc.
  apply trace_all_bind; [apply trace_all_lift | intros aot _].
  apply trace_all_bind; [destruct (_ =? _)%nat; constructor | intros _ _].
  apply trace_all_bind; [apply trace_all_emit; now exists t | intros _ _].
  destruct (monotony curve); [constructor | ].
  apply trace_all_emit. reflexivity.
Qed.

Lemma trace_all_draw rtoa0 tau minilut band level dims showall :
  trace_all (drawing_event minilut band level)
            (draw rtoa0 tau minilut alt vband band level dims showall).
Proof.
  unfold draw.
  apply trace_all_bind; [apply trace_all_emit; exact I | intros _ _].
  apply trace_all_bind; [apply trace_all_lift | intros wavelength _].
  apply trace_all_bind; [apply trace_all_lift | intros altitude _].
  apply trace_all_bind; [apply trace_all_emit; exact I | intros _ _].
  apply trace_all_bind; [destruct rtoa0; constructor | intros _ _].
  apply trace_all_bind; [apply trace_all_emit; exact I | intros _ _].
  apply trace_all_bind; [apply trace_all_lift | intros ts _].
  apply trace_all_bind;
    [apply trace_all_for_each; intros t; apply trace_all_plot_aot | intros _ _].
  apply trace_all_emit. exact I.
Qed.

Lemma trace_all_load (w : world) (a : args) : trace_all loading_event (load w a).
Proof.
  unfold trace_all.
  destruct (w_open w (FILE a)) as [e | fdata] eqn:Hopen.
  - rewrite (load_open_raises w a e Hopen).
    destruct e; repeat constructor; cbn; discriminate.
  - rewrite (load_cases w a fdata Hopen).
    destruct (reshape fdata 13 (length rtoa) 27 4);
      [destruct (verbose a) | ]; repeat constructor; cbn; discriminate.
Qed.

Lemma info_line_events (a : args) : Forall loading_event (info_line a).
Proof.
  unfold info_line. destruct (verbose a); repeat constructor. cbn. discriminate.
Qed.

(** The ways a run can go, from the validation to the call of [savefig]. *)
Lemma main_cases (w : world) (a : args) :
  (exists line, main w a = ([EPrint line], Raise (SystemExit 1)) /\
                line <> done_line) \/
  (exists t1 e, load w a = (t1, Raise e) /\
                main w a = (info_line a ++ t1, Raise e)) \/
  (exists t1 tau minilut ftau t2 e,
     load w a = (t1, Ok (tau, minilut, ftau)) /\
     draw rtoa tau minilut alt vband (band a) (level a) ftau (all a) = (t2, Raise e) /\
     main w a = (info_line a ++ t1 ++ t2, Raise e)) \/
  (exists t1 tau minilut ftau t2,
     load w a = (t1, Ok (tau, minilut, ftau)) /\
     draw rtoa tau minilut alt vband (band a) (level a) ftau (all a) = (t2, Ok tt) /\
     main w a =
     (info_line a ++ t1 ++ t2 ++ ESavefig (fname a) :: fst (after_savefig w a),
      snd (after_savefig w a))).
Proof.
  destruct (Z.lt_ge_cases 13 (band a)) as [Hb | Hb].
  { left. eexists. split; [apply main_band_rejected; exact Hb | discriminate]. }
  destruct (Z.lt_ge_cases 4 (level a)) as [Hl | Hl].
  { left. eexists. split; [apply main_level_rejected; assumption | discriminate]. }
  right.
  destruct (load w a) as [t1 [[[tau minilut] ftau] | e]] eqn:Hload.
  2:{ left. exists t1, e. split; [reflexivity | ].
      apply (main_not_loaded w a t1 e Hb Hl Hload). }
  right.
  destruct (draw rtoa tau minilut alt vband (band a) (level a) ftau (all a))
    as [t2 [[] | e]] eqn:Hdraw.
  - right. exists t1, tau, minilut, ftau, t2.
    split; [reflexivity | split; [exact Hdraw | ]].
    apply (main_drawn w a _ _ _ _ _ Hb Hl Hload Hdraw).
  - left. exists t1, tau, minilut, ftau, t2, e.
    split; [reflexivity | split; [exact Hdraw | ]].
    apply (main_not_drawn w a _ _ _ _ _ _ Hb Hl Hload Hdraw).
Qed.

Lemma axis_index_lt (n : nat) (i : Z) (k : nat) :
  axis_index n i = Some k -> (k < n)%nat.
Proof.
  unfold axis_index.
  destruct (Z.ltb_spec i (- Z.of_nat n)); [discriminate | ].
  destruct (Z.leb_spec (Z.of_nat n) i); [discriminate | ]. cbn [orb].
  intros [= <-]. destruct (Z.ltb_spec i 0); lia.
Qed.

Lemma flat_index_lt (x n y m : nat) :
  (x < n)%nat -> (y < m)%nat -> (x * m + y < n * m)%nat.
Proof. intros Hx Hy. nia. Qed.

Lemma slice_in_data (minilut : ndarray4) (d0 d1 d2 d3 : nat) band t level curve :
  nd_shape minilut = (d0, d1, d2, d3) ->
  length (nd_data minilut) = (d0 * d1 * d2 * d3)%nat ->
  slice minilut band t level = Some curve ->
  forall x, In x curve -> In x (nd_data minilut).
Proof.
  intros Hs Hlen. unfold slice. rewrite Hs.
  destruct (axis_index d0 band) as [b | ] eqn:Eb; [ | discriminate].
  destruct (axis_index d2 t) as [k | ] eqn:Ek; [ | discriminate].
  destruct (axis_index d3 level) as [l | ] eqn:El; [ | discriminate].
  apply axis_index_lt in Eb, Ek, El.
  intros [= <-] x Hx. apply in_map_iff in Hx as (r & <- & Hr).
  apply in_seq in Hr. apply nth_In. rewrite Hlen.
  apply flat_index_lt; [ | exact El].
  apply flat_index_lt; [ | exact Ek].
  apply flat_index_lt; [exact Eb | lia].
Qed.

Lemma loading_event_not_plot (t : list event) label curve :
  Forall loading_event t -> ~ In (EPlot label curve) t.
Proof.
  intros H Hin. rewrite Forall_forall in H. exact (H _ Hin).
Qed.

Lemma after_savefig_events (w : world) (a : args) (ev : event) :
  In ev (fst (after_savefig w a)) ->
  ev = EPrint permission_warning \/ ev = EShow \/ ev = EPrint done_line.
Proof.
  unfold after_savefig, show_events.
  destruct (w_savefig w (fname a)) as [[] | ]; destruct (verbose a);
    cbn [fst In app]; intuition auto.
Qed.

(** Every curve a run plots has one ordinate per reflectance of the axis
    [rtoa], and each ordinate is an element of the buffer read from the
    input file: nothing is plotted that the file does not hold. *)
Theorem plotted_values_from_file (w : world) (a : args) label curve :
  In (EPlot label curve) (fst (main w a)) ->
  exists fdata,
    w_open w (FILE a) = inr fdata /\
    length curve = length rtoa /\
    (forall x, In x curve -> In x fdata).
Proof.
  intros Hin.
  assert (Hinfo : ~ In (EPlot label curve) (info_line a))
    by (apply loading_event_not_plot, info_line_events).
  assert (Hload : ~ In (EPlot label curve) (fst (load w a)))
    by (apply loading_event_not_plot, trace_all_load).
  assert (Hdrawn : forall t1 tau minilut ftau t2 r,
            load w a = (t1, Ok (tau, minilut, ftau)) ->
            draw rtoa tau minilut alt vband (band a) (level a) ftau (all a) = (t2, r) ->
            In (EPlot label curve) t2 ->
            exists fdata,
              w_open w (FILE a) = inr fdata /\
              length curve = length rtoa /\
              (forall x, In x curve -> In x fdata)).
  { intros t1 tau minilut ftau t2 r Hl Hd Hin2.
    destruct (load_ok_data w a _ _ _ _ Hl) as (fdata & Hopen & Hdata & Hs & Hsize).
    pose proof (trace_all_draw rtoa tau minilut (band a) (level a) ftau (all a)) as Hev.
    unfold trace_all in Hev. rewrite Hd in Hev. cbn [fst] in Hev.
    rewrite Forall_forall in Hev. destruct (Hev _ Hin2) as (t & Hslice).
    exists fdata. split; [exact Hopen | split].
    - eapply slice_length; [exact Hs | exact Hslice].
    - rewrite <- Hdata.
      eapply slice_in_data; [exact Hs | | exact Hslice].
      rewrite Hdata. exact Hsize. }
  destruct (main_cases w a)
    as [(line & E & _) | [(t1 & e & Hl & E) |
        [(t1 & tau & minilut & ftau & t2 & e & Hl & Hd & E) |
         (t1 & tau & minilut & ftau & t2 & Hl & Hd & E)]]];
    rewrite E in Hin; cbn [fst] in Hin; rewrite ?Hl in Hload; cbn [fst] in Hload.
  - destruct Hin as [Hin | []]. discriminate.
  - apply in_app_or in Hin as [Hin | Hin]; contradiction.
  - apply in_app_or in Hin as [Hin | Hin]; [contradiction | ].
    apply in_app_or in Hin as [Hin | Hin]; [contradiction | ].
    apply (Hdrawn _ _ _ _ _ _ Hl Hd Hin).
  - apply in_app_or in Hin as [Hin | Hin]; [contradiction | ].
    apply in_app_or in Hin as [Hin | Hin]; [contradiction | ].
    apply in_app_or in Hin as [Hin | Hin]; [apply (Hdrawn _ _ _ _ _ _ Hl Hd Hin) | ].
    destruct Hin as [Hin | Hin]; [discriminate | ].
    apply after_savefig_events in Hin as [Hin | [Hin | Hin]]; discriminate.
Qed.

Lemma plotted_values_from_file_witness :
  exists fdata,
    w_open (world_with (nd_data flat8_lut)) (FILE (cli "sample.minilut" 0 0)) =
    inr fdata /\
    length (curve_of flat8_lut 0 0 8) = length rtoa /\
    (forall x, In x (curve_of flat8_lut 0 0 8) -> In x fdata).
Proof.
  apply (plotted_values_from_file (world_with (nd_data flat8_lut))
           (cli "sample.minilut" 0 0) "AOT=0.50").
  vm_compute. do 5 right. left. reflexivity.
Defined.

(** The interactive display happens only with [--verbose], only after
    [savefig] was called and did not stop the run, and it is the last
    thing before the completion message; such a run exits with status 0. *)
Theorem show_only_when_verbose (w : world) (a : args) :
  In EShow (fst (main w a)) ->
  verbose a = true /\
  snd (main w a) = Raise (SystemExit 0) /\
  exists t,
    fst (main w a) = t ++ [EShow; EPrint done_line] /\
    In (ESavefig (fname a)) t.
Proof.
  intros Hin.
  assert (Hno : forall t, Forall loading_event t -> ~ In EShow t).
  { intros t H Hi. rewrite Forall_forall in H. exact (H _ Hi). }
  assert (Hnd : forall tau minilut ftau t2 r,
            draw rtoa tau minilut alt vband (band a) (level a) ftau (all a) = (t2, r) ->
            ~ In EShow t2).
  { intros tau minilut ftau t2 r Hd Hi.
    pose proof (trace_all_draw rtoa tau minilut (band a) (level a) ftau (all a)) as Hev.
    unfold trace_all in Hev. rewrite Hd in Hev. cbn [fst] in Hev.
    rewrite Forall_forall in Hev. exact (Hev _ Hi). }
  pose proof (Hno _ (info_line_events a)) as Hinfo.
  pose proof (Hno _ (trace_all_load w a)) as Hload.
  destruct (main_cases w a)
    as [(line & E & _) | [(t1 & e & Hl & E) |
        [(t1 & tau & minilut & ftau & t2 & e & Hl & Hd & E) |
         (t1 & tau & minilut & ftau & t2 & Hl & Hd & E)]]];
    rewrite E in Hin |- *; cbn [fst snd] in Hin |- *;
    rewrite ?Hl in Hload; cbn [fst] in Hload.
  - destruct Hin as [Hin | []]. discriminate.
  - apply in_app_or in Hin as [Hin | Hin]; contradiction.
  - apply in_app_or in Hin as [Hin | Hin]; [contradiction | ].
    apply in_app_or in Hin as [Hin | Hin]; [contradiction | ].
    destruct (Hnd _ _ _ _ _ Hd Hin).
  - apply in_app_or in Hin as [Hin | Hin]; [contradiction | ].
    apply in_app_or in Hin as [Hin | Hin]; [contradiction | ].
    apply in_app_or in Hin as [Hin | Hin]; [destruct (Hnd _ _ _ _ _ Hd Hin) | ].
    destruct Hin as [Hin | Hin]; [discriminate | ].
    unfold after_savefig, show_events in Hin |- *.
    destruct (w_savefig w (fname a)) as [[] | ]; destruct (verbose a);
      cbn [fst snd In app] in Hin |- *;
      try (exfalso; intuition discriminate).
    + split; [reflexivity | split; [reflexivity | ]].
      exists (info_line a ++ t1 ++ t2 ++ [ESavefig (fname a); EPrint permission_warning]).
      split; [rewrite <- !app_assoc; reflexivity | ].
      apply in_or_app; right. apply in_or_app; right. apply in_or_app; right.
      left. reflexivity.
    + split; [reflexivity | split; [reflexivity | ]].
      exists (info_line a ++ t1 ++ t2 ++ [ESavefig (fname a)]).
      split; [rewrite <- !app_assoc; reflexivity | ].
      apply in_or_app; right. apply in_or_app; right. apply in_or_app; right.
      left. reflexivity.
Qed.

Lemma show_only_when_verbose_witness :
  verbose {| FILE := "sample.minilut"; verbose := true; band := 1; level := 0;
             all := false |} = true /\
  snd (main (world_with extended_buffer)
            {| FILE := "sample.minilut"; verbose := true; band := 1; level := 0;
               all := false |}) = Raise (SystemExit 0) /\
  exists t,
    fst (main (world_with extended_buffer)
              {| FILE := "sample.minilut"; verbose := true; band := 1; level := 0;
                 all := false |}) = t ++ [EShow; EPrint done_line] /\
    In (ESavefig
          (fname {| FILE := "sample.minilut"; verbose := true; band := 1;
                    level := 0; all := false |})) t.
Proof.
  apply (show_only_when_verbose (world_with extended_buffer)
           {| FILE := "sample.minilut"; verbose := true; band := 1; level := 0;
              all := false |}).
  vm_compute. do 14 right. left. reflexivity.
Defined.

(** * How a run ends *)

Lemma raises_in_bind {A B : Type} (Q : exn -> Prop) (m : M A) (k : A -> M B) :
  raises_in Q m -> (forall a, raises_in Q (k a)) -> raises_in Q (bind m k).
Proof.
  unfold raises_in, bind. intros Hm Hk e.
  destruct (snd m) as [a | e'] eqn:E; cbn [snd].
  - apply Hk.
  - intros [= <-]. apply Hm. reflexivity.
Qed.

Lemma raises_in_ok {A : Type} (Q : exn -> Prop) (t : list event) (a : A) :
  raises_in Q (t, Ok a).
Proof. intros e H. discriminate. Qed.

Lemma raises_in_raise {A : Type} (Q : exn -> Prop) (e : exn) :
  Q e -> raises_in Q (@raise A e).
Proof. intros H e' [= <-]. exact H. Qed.

Lemma raises_in_lift {A : Type} (Q : exn -> Prop) (o : option A) (e : exn) :
  Q e -> raises_in Q (lift o e).
Proof. intros H. destruct o; [apply raises_in_ok | now apply raises_in_raise]. Qed.

Lemma raises_in_for_each {A : Type} (Q : exn -> Prop) (l : list A)
    (body : A -> M unit) :
  (forall x, raises_in Q (body x)) -> raises_in Q (for_each l body).
Proof.
  intros H. induction l as [ | x r IH]; cbn [for_each]; [apply raises_in_ok | ].
  apply raises_in_bind; [apply H | intros _; exact IH].
Qed.

Lemma raises_in_draw rtoa0 tau minilut band level dims showall :
  raises_in drawing_exn (draw rtoa0 tau minilut alt vband band level dims showall).
Proof.
  unfold draw, plot_aot, drawing_exn.
  repeat first
    [ apply raises_in_ok
    | apply raises_in_lift; tauto
    | apply raises_in_raise; tauto
    | apply raises_in_for_each; intros ?
    | match goal with
      | |- raises_in _ (if ?b then _ else _) => destruct b
      | |- raises_in _ (match ?l with [] => _ | _ :: _ => _ end) => destruct l
      | |- raises_in _ (when ?b _) => destruct b
      end
    | apply raises_in_bind; [ | intros ? ] ].
Qed.

Lemma load_raise_inv (w : world) (a : args) t e :
  load w a = (t, Raise e) ->
  e = ValueError \/ e = UnboundLocalError \/ e = SystemExit 1 \/
  w_open w (FILE a) = inl e.
Proof.
  destruct (w_open w (FILE a)) as [e' | fdata] eqn:Hopen.
  - rewrite (load_open_raises w a e' Hopen).
    destruct e'; intros [= _ <-]; tauto.
  - rewrite (load_cases w a fdata Hopen).
    destruct (reshape fdata 13 (length rtoa) 27 4); [discriminate | ].
    destruct (reshape fdata 13 (length rtoa) 25 4); [discriminate | ].
    intros [= _ <-]. tauto.
Qed.

Lemma after_savefig_cases (w : world) (a : args) :
  (exists t, after_savefig w a = (t ++ [EPrint done_line], Raise (SystemExit 0))) \/
  (exists e, w_savefig w (fname a) = Some e /\ e <> PermissionError /\
             after_savefig w a = ([], Raise e)).
Proof.
  unfold after_savefig.
  destruct (w_savefig w (fname a)) as [e | ].
  - destruct e;
      try (right; eexists; split; [reflexivity | split; [discriminate | reflexivity]]).
    left. exists (EPrint permission_warning :: show_events a). reflexivity.
  - left. exists (show_events a). reflexivity.
Qed.

(** The completion message is the mark of a run that went through. When it
    is printed it is the last line and the run exits with status 0.
    Conversely, unless the environment itself raises [SystemExit(0)] while
    reading or saving, a run that ends with [sys.exit(0)] has printed it:
    no error path exits with status 0. *)
Theorem completion_message (w : world) (a : args) :
  (In (EPrint done_line) (fst (main w a)) ->
   snd (main w a) = Raise (SystemExit 0) /\
   exists t, fst (main w a) = t ++ [EPrint done_line]) /\
  (w_open w (FILE a) <> inl (SystemExit 0) ->
   w_savefig w (fname a) <> Some (SystemExit 0) ->
   snd (main w a) = Raise (SystemExit 0) ->
   In (EPrint done_line) (fst (main w a))).
Proof.
  assert (Hno : forall t, Forall loading_event t -> ~ In (EPrint done_line) t).
  { intros t H Hi. rewrite Forall_forall in H. exact (H _ Hi eq_refl). }
  assert (Hnd : forall tau minilut ftau t2 r,
            draw rtoa tau minilut alt vband (band a) (level a) ftau (all a) = (t2, r) ->
            ~ In (EPrint done_line) t2).
  { intros tau minilut ftau t2 r Hd Hi.
    pose proof (trace_all_draw rtoa tau minilut (band a) (level a) ftau (all a)) as Hev.
    unfold trace_all in Hev. rewrite Hd in Hev. cbn [fst] in Hev.
    rewrite Forall_forall in Hev. specialize (Hev _ Hi). cbn in Hev. discriminate. }
  pose proof (Hno _ (info_line_events a)) as Hinfo.
  pose proof (Hno _ (trace_all_load w a)) as Hload.
  destruct (main_cases w a)
    as [(line & E & Hline) | [(t1 & e & Hl & E) |
        [(t1 & tau & minilut & ftau & t2 & e & Hl & Hd & E) |
         (t1 & tau & minilut & ftau & t2 & Hl & Hd & E)]]];
    rewrite E; cbn [fst snd]; rewrite ?Hl in Hload; cbn [fst] in Hload.
  - split.
    + intros [Hin | []]. injection Hin as Hin. contradiction.
    + intros _ _ H. discriminate.
  - split.
    + intros Hin. apply in_app_or in Hin as [Hin | Hin]; contradiction.
    + intros Hw _ H. injection H as ->.
      destruct (load_raise_inv w a _ _ Hl) as [H | [H | [H | H]]];
        try discriminate. contradiction.
  - split.
    + intros Hin. apply in_app_or in Hin as [Hin | Hin]; [contradiction | ].
      apply in_app_or in Hin as [Hin | Hin]; [contradiction | ].
      destruct (Hnd _ _ _ _ _ Hd Hin).
    + intros _ _ H. injection H as ->.
      pose proof (raises_in_draw rtoa tau minilut (band a) (level a) ftau (all a)) as Hr.
      unfold raises_in in Hr. rewrite Hd in Hr.
      destruct (Hr _ eq_refl) as [H | [H | H]]; discriminate.
  - destruct (after_savefig_cases w a) as [(t & Ha) | (e & Hs & Hne & Ha)];
      rewrite Ha; cbn [fst snd].
    + split.
      * intros _. split; [reflexivity | ].
        exists (info_line a ++ t1 ++ t2 ++ ESavefig (fname a) :: t).
        rewrite <- !app_assoc. reflexivity.
      * intros _ _ _. apply in_or_app; right. apply in_or_app; right.
        apply in_or_app; right. right. apply in_or_app; right.
        left. reflexivity.
    + split.
      * intros Hin. apply in_app_or in Hin as [Hin | Hin]; [contradiction | ].
        apply in_app_or in Hin as [Hin | Hin]; [contradiction | ].
        apply in_app_or in Hin as [Hin | Hin]; [destruct (Hnd _ _ _ _ _ Hd Hin) | ].
        destruct Hin as [Hin | []]. discriminate.
      * intros _ Hw H. injection H as ->. contradiction.
Qed.

Lemma completion_message_witness :
  (snd (main (world_with extended_buffer) (cli "sample.minilut" 1 0)) =
   Raise (SystemExit 0) /\
   exists t,
     fst (main (world_with extended_buffer) (cli "sample.minilut" 1 0)) =
     t ++ [EPrint done_line]) /\
  In (EPrint done_line)
     (fst (main (world_with extended_buffer) (cli "sample.minilut" 1 0))).
Proof.
  destruct (completion_message (world_with extended_buffer)
              (cli "sample.minilut" 1 0)) as [H1 H2].
  split.
  - apply H1. vm_compute. do 12 right. left. reflexivity.
  - apply H2; [discriminate | discriminate | vm_compute; reflexivity].
Defined.

(** * Distinct output names *)

Lemma append_inj_l (p x y : string) : (p ++ x)%string = (p ++ y)%string -> x = y.
Proof.
  induction p as [ | c p IH]; cbn; [trivial | ].
  intros [= H]. exact (IH H).
Qed.

Lemma append_sep_inj (c : ascii) (s1 : string) :
  forall s1' t t' : string,
    free_of c s1 -> free_of c s1' ->
    (s1 ++ String c t)%string = (s1' ++ String c t')%string ->
    s1 = s1' /\ t = t'.
Proof.
  induction s1 as [ | x s1 IH]; intros [ | x' s1'] t t' F F'; cbn.
  - intros [= ->]. split; reflexivity.
  - intros [= E _]. cbn in F'. destruct F' as [F' _]. congruence.
  - intros [= E _]. cbn in F. destruct F as [F _]. congruence.
  - intros [= -> E]. cbn in F, F'.
    destruct (IH s1' t t' (proj2 F) (proj2 F') E) as [-> ->].
    split; reflexivity.
Qed.

Lemma uint_free_of (c : ascii) (d : Decimal.uint) :
  free_of c "0123456789" -> free_of c (NilEmpty.string_of_uint d).
Proof.
  cbn. intros H.
  induction d; cbn [NilEmpty.string_of_uint free_of]; [exact I | ..];
    (split; [tauto | assumption]).
Qed.

Lemma str_free_of (c : ascii) (z : Z) :
  free_of c "-0123456789" -> free_of c (str z).
Proof.
  intros [Hm Hd]. unfold str, NilZero.string_of_int, NilZero.string_of_uint.
  assert (H0 : free_of c "0") by (cbn in Hd |- *; tauto).
  destruct (Z.to_int z) as [d | d]; [ | cbn [free_of]; split; [congruence | ]];
    (destruct d; [exact H0 | apply (uint_free_of c _ Hd) ..]).
Qed.

Lemma to_int_nonnil (z : Z) :
  Z.to_int z <> Decimal.Pos Decimal.Nil /\ Z.to_int z <> Decimal.Neg Decimal.Nil.
Proof.
  destruct z as [ | p | p]; cbn; split; try discriminate;
    intros [= E]; exact (DecimalPos.Unsigned.to_uint_nonnil p E).
Qed.

(** [str] is injective: the decimal writing determines the integer. *)
Lemma str_inj (z z' : Z) : str z = str z' -> z = z'.
Proof.
  unfold str. intros E. apply DecimalZ.to_int_inj.
  destruct (to_int_nonnil z) as [H1 H2]. destruct (to_int_nonnil z') as [H1' H2'].
  pose proof (NilZero.isi _ H1 H2) as I. pose proof (NilZero.isi _ H1' H2') as I'.
  rewrite E in I. rewrite I in I'. now injection I'.
Qed.

(** The output name determines the band and the level: two runs on the
    same input file write to the same image only when they plot the same
    band at the same level. *)
Theorem fname_injective (a a' : args) :
  FILE a = FILE a' -> fname a = fname a' ->
  band a = band a' /\ level a = level a'.
Proof.
  intros HF E. unfold fname in E. rewrite HF in E.
  apply append_inj_l in E. cbn [append] in E. injection E as E.
  apply (append_sep_inj "_") in E as [Eb E];
    [ | apply str_free_of; cbn; intuition discriminate ..].
  injection E as E.
  apply (append_sep_inj ".") in E as [El _];
    [ | apply str_free_of; cbn; intuition discriminate ..].
  apply str_inj in Eb, El. split; lia.
Qed.

Lemma fname_injective_witness :
  band (cli "sample.minilut" 1 0) =
  band {| FILE := "sample.minilut"; verbose := true; band := 1; level := 0;
          all := true |} /\
  level (cli "sample.minilut" 1 0) =
  level {| FILE := "sample.minilut"; verbose := true; band := 1; level := 0;
           all := true |}.
Proof.
  apply (fname_injective (cli "sample.minilut" 1 0)
           {| FILE := "sample.minilut"; verbose := true; band := 1; level := 0;
              all := true |});
    reflexivity.
Defined.

(** * A flag that is neither ["LUT30"] nor ["LUT15"] *)

(** [miniplot] called without [showall] and with a flag other than the two
    it knows leaves [tau_sampling] unbound: after the title and the dashed
    line the loop raises [UnboundLocalError], nothing is plotted or saved. *)
Theorem unknown_flag_unbound
    (w : world) rtoa0 tau minilut filename band level dims verbose :
  dims <> "LUT30"%string -> dims <> "LUT15"%string ->
  rtoa0 <> [] ->
  in_axis 13 band -> in_axis 4 level ->
  exists wavelength altitude,
    miniplot w rtoa0 tau minilut alt vband filename band level dims verbose false =
    ([ESubplots; ETitle wavelength altitude; EIdentity], Raise UnboundLocalError).
Proof.
  intros H30 H15 Hne Hb Hl.
  destruct (py_index_in vband band Hb) as (wavelength & Hw).
  destruct (py_index_in alt level Hl) as (altitude & Ha).
  exists wavelength, altitude.
  unfold miniplot, draw, tau_sampling. rewrite Hw, Ha.
  apply String.eqb_neq in H30, H15. rewrite H30, H15.
  destruct rtoa0 as [ | x0 r0]; [contradiction | reflexivity].
Qed.

Lemma unknown_flag_unbound_witness :
  exists wavelength altitude,
    miniplot (world_with []) rtoa tau30 flat8_lut alt vband "out.png" 0 0 "LUT20"
             false false =
    ([ESubplots; ETitle wavelength altitude; EIdentity], Raise UnboundLocalError).
Proof.
  apply (unknown_flag_unbound (world_with []) rtoa tau30 flat8_lut "out.png" 0 0
           "LUT20" false).
  - discriminate.
  - discriminate.
  - vm_compute. discriminate.
  - unfold in_axis. cbn. lia.
  - unfold in_axis. cbn. lia.
Defined.

(** * The validation of the indices *)

Lemma drawing_event_not_usage_error minilut band level ev :
  drawing_event minilut band level ev -> not_usage_error ev.
Proof.
  destruct ev; cbn; trivial.
  intros H. split; intros ->; discriminate.
Qed.

Lemma load_not_usage_error (w : world) (a : args) :
  Forall not_usage_error (fst (load w a)).
Proof.
  destruct (w_open w (FILE a)) as [e | fdata] eqn:Hopen.
  - rewrite (load_open_raises w a e Hopen).
    destruct e; repeat constructor; cbn; discriminate.
  - rewrite (load_cases w a fdata Hopen).
    destruct (reshape fdata 13 (length rtoa) 27 4);
      [destruct (verbose a) | ]; repeat constructor; cbn; discriminate.
Qed.

Lemma info_line_not_usage_error (a : args) : Forall not_usage_error (info_line a).
Proof.
  unfold info_line. destruct (verbose a); repeat constructor; cbn; discriminate.
Qed.

Lemma after_savefig_not_usage_error (w : world) (a : args) :
  Forall not_usage_error (fst (after_savefig w a)).
Proof.
  apply Forall_forall. intros ev Hin.
  apply after_savefig_events in Hin as [-> | [-> | ->]];
    cbn; trivial; split; discriminate.
Qed.

(** A run that passes the validation never prints a usage error. *)
Lemma validated_not_usage_error (w : world) (a : args) :
  band a <= 13 -> level a <= 4 ->
  Forall not_usage_error (fst (main w a)).
Proof.
  intros Hb Hl.
  pose proof (info_line_not_usage_error a) as Hinfo.
  pose proof (load_not_usage_error w a) as Hload.
  assert (Hdraw : forall tau minilut ftau t2 r,
            draw rtoa tau minilut alt vband (band a) (level a) ftau (all a) = (t2, r) ->
            Forall not_usage_error t2).
  { intros tau minilut ftau t2 r Hd.
    pose proof (trace_all_draw rtoa tau minilut (band a) (level a) ftau (all a)) as Hev.
    unfold trace_all in Hev. rewrite Hd in Hev. cbn [fst] in Hev.
    apply (Forall_impl _ (drawing_event_not_usage_error minilut (band a) (level a))).
    exact Hev. }
  destruct (main_cases w a)
    as [(line & E & _) | [(t1 & e & Hl1 & E) |
        [(t1 & tau & minilut & ftau & t2 & e & Hl1 & Hd & E) |
         (t1 & tau & minilut & ftau & t2 & Hl1 & Hd & E)]]];
    rewrite ?Hl1 in Hload; cbn [fst] in Hload.
  - destruct (main_opens w a Hb Hl) as [t Ht]. rewrite E in Ht. cbn [fst] in Ht.
    unfold info_line in Ht. destruct (verbose a); discriminate.
  - rewrite E. cbn [fst]. apply Forall_app. split; assumption.
  - rewrite E. cbn [fst]. apply Forall_app. split; [assumption | ].
    apply Forall_app. split; [assumption | exact (Hdraw _ _ _ _ _ Hd)].
  - rewrite E. cbn [fst]. apply Forall_app. split; [assumption | ].
    apply Forall_app. split; [assumption | ].
    apply Forall_app. split; [exact (Hdraw _ _ _ _ _ Hd) | ].
    constructor; [exact I | apply after_savefig_not_usage_error].
Qed.

(** C1, as the code has it. The validation has upper tests only. An
    invocation whose band index is greater than 13, or whose level index is
    greater than 4, prints the usage error and exits with status 1; nothing
    else happens, in particular no file is opened. A negative band or level
    index (the other index below its bound) is not a usage error: neither
    message is printed and the first thing the run does, after the optional
    INFO line, is to open the input file. *)
Theorem validation_spec (w : world) (a : args) :
  (13 < band a \/ 4 < level a ->
   main w a =
   ([EPrint (if 13 <? band a then "ERROR: Band number out of range"
             else "ERROR: Level out of range")],
    Raise (SystemExit 1)) /\
   exit_status (snd (main w a)) = 1 /\
   (forall path, ~ In (EOpen path) (fst (main w a)))) /\
  (band a < 0 \/ level a < 0 ->
   band a < 13 -> level a < 4 ->
   (exists t, fst (main w a) = info_line a ++ EOpen (FILE a) :: t) /\
   ~ In (EPrint band_error) (fst (main w a)) /\
   ~ In (EPrint level_error) (fst (main w a))).
Proof.
  split.
  - intros H.
    assert (E : main w a =
      ([EPrint (if 13 <? band a then "ERROR: Band number out of range"
                else "ERROR: Level out of range")],
       Raise (SystemExit 1))).
    { destruct (Z.ltb_spec 13 (band a)) as [Hb | Hb].
      - apply main_band_rejected; exact Hb.
      - apply main_level_rejected; lia. }
    rewrite E. split; [reflexivity | split; [reflexivity | ]].
    intros path [H' | []]. discriminate.
  - intros _ Hb Hl.
    assert (Hb' : band a <= 13) by lia. assert (Hl' : level a <= 4) by lia.
    split; [apply (main_opens w a Hb' Hl') | ].
    pose proof (validated_not_usage_error w a Hb' Hl') as Hall.
    rewrite Forall_forall in Hall.
    split; intros Hin; destruct (Hall _ Hin) as [H1 H2]; congruence.
Qed.

Lemma validation_spec_witness :
  (main (world_with extended_buffer) (cli "sample.minilut" 14 0) =
   ([EPrint "ERROR: Band number out of range"], Raise (SystemExit 1)) /\
   exit_status (snd (main (world_with extended_buffer) (cli "sample.minilut" 14 0))) = 1 /\
   (forall path,
      ~ In (EOpen path)
           (fst (main (world_with extended_buffer) (cli "sample.minilut" 14 0))))) /\
  ((exists t,
      fst (main (world_with extended_buffer) (cli "sample.minilut" (-1) 0)) =
      [] ++ EOpen "sample.minilut" :: t) /\
   ~ In (EPrint band_error)
        (fst (main (world_with extended_buffer) (cli "sample.minilut" (-1) 0))) /\
   ~ In (EPrint level_error)
        (fst (main (world_with extended_buffer) (cli "sample.minilut" (-1) 0)))).
Proof.
  split.
  - apply (proj1 (validation_spec (world_with extended_buffer)
                    (cli "sample.minilut" 14 0))).
    left. reflexivity.
  - apply (proj2 (validation_spec (world_with extended_buffer)
                    (cli "sample.minilut" (-1) 0)));
      [left; reflexivity | reflexivity | reflexivity].
Defined.

(** C1 fails on the code. Band index -1 is outside [0,13), yet the run
    reports no usage error: the first thing it does is to open the input
    file, and it completes with exit status 0. *)
Lemma validation_counterexample :
  hd_error (fst (main (world_with extended_buffer) (cli "sample.minilut" (-1) 0))) =
  Some (EOpen "sample.minilut") /\
  snd (main (world_with extended_buffer) (cli "sample.minilut" (-1) 0)) =
  Raise (SystemExit 0) /\
  exit_status (snd (main (world_with extended_buffer) (cli "sample.minilut" (-1) 0))) = 0.
Proof. vm_compute. repeat split. Qed.
